(** * Scoped guards around CPython thread states and sub-interpreters

    A verification development for [main.cpp]: the RAII guards
    [enable_threads_scope], [restore_tstate_scope], [swap_tstate_scope],
    [thread_state], [sub_interpreter] and [sub_interpreter::thread_scope],
    the worker [f] and the entry point [main].

    The guards are thin wrappers around the CPython C API, which is not part
    of the repository.  The API is modelled below as a state machine over an
    explicit [runtime] record, following the contracts of the C-API reference
    manual (the 3.7 - 3.11 line the source's comments refer to):
    - a call on which CPython aborts ([Py_FatalError]) or which dereferences
      a thread state or interpreter that is no longer alive is [Fatal];
    - a call that has to wait for the global interpreter lock is [Blocked]
      in a state where the lock is taken;
    - calls that only exchange pointers do not inspect them.

    Every guard is then embedded as the sequence of API calls its constructor
    and destructor make, in a small state-and-error monad.  [main] and the
    four threads that run [f] are embedded as a labelled transition system
    over the same calls, one atomic step per call, whose reachable
    configurations are enumerated and checked. *)

From Stdlib Require Import Ascii String.
From stdpp Require Import gmap strings list fin_maps.

Local Open Scope string_scope.

(** ** Data model *)

(** OS threads, [PyThreadState*] and [PyInterpreterState*] are identified by
    numbers; a nullable pointer is an [option]. *)
Abbreviation tid := nat (only parsing).
Abbreviation addr := nat (only parsing).
Abbreviation interp_id := nat (only parsing).

(** The Python values the two embedded scripts handle. *)
#[warnings="-register-all"]
Inductive pyval :=
  | PyStr (s : string)
  | PyList (l : list pyval).

(** [struct _ts]: the interpreter it belongs to and whether
    [PyThreadState_Clear] has reset it. *)
Record PyThreadState := mkThreadState {
  interp : interp_id;
  cleared : bool
}.

(** [struct _is]: reduced to the attributes of its private [sys] module. *)
Record PyInterpreterState := mkInterpreterState {
  sys : gmap string pyval
}.

(** One call of the C API, as observed from outside. *)
Inductive event :=
  | EvInitializeEx (t : tid)
  | EvInitThreads (t : tid)
  | EvFinalize (t : tid)
  | EvSaveThread (t : tid) (old : addr)
  | EvRestoreThread (t : tid) (ts : addr)
  | EvGet (t : tid) (ts : addr)
  | EvSwap (t : tid) (new old : option addr)
  | EvNew (t : tid) (i : interp_id) (ts : addr)
  | EvClear (t : tid) (ts : addr)
  | EvDeleteCurrent (t : tid) (ts : addr)
  | EvNewInterpreter (t : tid) (ts : option addr)
  | EvEndInterpreter (t : tid) (ts : addr)
  | EvRunSimpleString (t : tid) (i : interp_id).

(** The process-wide state of the embedded Python runtime. *)
Record runtime := mkRuntime {
  initialized : bool;                          (* Py_IsInitialized() *)
  gil : option tid;                            (* holder of the GIL *)
  current : gmap tid addr;                     (* current thread state, per thread *)
  tstates : gmap addr PyThreadState;           (* live thread states *)
  interps : gmap interp_id PyInterpreterState; (* live interpreters *)
  next_tstate : addr;                          (* allocator *)
  next_interp : interp_id;                     (* allocator *)
  trace : list event;                          (* API calls so far *)
  stdout : list string                         (* lines printed so far *)
}.

Definition set_gil (g : option tid) (s : runtime) : runtime :=
  mkRuntime (initialized s) g (current s) (tstates s) (interps s)
            (next_tstate s) (next_interp s) (trace s) (stdout s).

Definition set_current (c : gmap tid addr) (s : runtime) : runtime :=
  mkRuntime (initialized s) (gil s) c (tstates s) (interps s)
            (next_tstate s) (next_interp s) (trace s) (stdout s).

Definition set_tstates (m : gmap addr PyThreadState) (s : runtime) : runtime :=
  mkRuntime (initialized s) (gil s) (current s) m (interps s)
            (next_tstate s) (next_interp s) (trace s) (stdout s).

Definition set_interps (m : gmap interp_id PyInterpreterState) (s : runtime) : runtime :=
  mkRuntime (initialized s) (gil s) (current s) (tstates s) m
            (next_tstate s) (next_interp s) (trace s) (stdout s).

Definition emit (e : event) (s : runtime) : runtime :=
  mkRuntime (initialized s) (gil s) (current s) (tstates s) (interps s)
            (next_tstate s) (next_interp s) (trace s ++ [e])%list (stdout s).

Definition print (line : string) (s : runtime) : runtime :=
  mkRuntime (initialized s) (gil s) (current s) (tstates s) (interps s)
            (next_tstate s) (next_interp s) (trace s) (stdout s ++ [line])%list.

(** The current thread state of thread [t]: a thread without an entry has
    the NULL thread state. *)
Definition set_current_of (t : tid) (ts : option addr) (s : runtime) : runtime :=
  set_current (match ts with
               | Some a => <[t := a]> (current s)
               | None => delete t (current s)
               end) s.

(** Allocation of a thread state for interpreter [i]. *)
Definition alloc_tstate (i : interp_id) (s : runtime) : addr * runtime :=
  let a := next_tstate s in
  (a, mkRuntime (initialized s) (gil s) (current s)
                (<[a := mkThreadState i false]> (tstates s)) (interps s)
                (S a) (next_interp s) (trace s) (stdout s)).

(** Allocation of an interpreter with a pristine [sys] module. *)
Definition alloc_interp (s : runtime) : interp_id * runtime :=
  let i := next_interp s in
  (i, mkRuntime (initialized s) (gil s) (current s) (tstates s)
                (<[i := mkInterpreterState ∅]> (interps s))
                (next_tstate s) (S i) (trace s) (stdout s)).

(** The state of a process before [Py_InitializeEx]. *)
Definition boot : runtime :=
  mkRuntime false None ∅ ∅ ∅ 1 1 [] [].

(** ** The monad of API calls *)

Inductive outcome (A : Type) :=
  | Ok (a : A) (s : runtime)
  | Blocked
  | Fatal (msg : string).
Arguments Ok {A} a s.
Arguments Blocked {A}.
Arguments Fatal {A} msg.

Definition M (A : Type) : Type := runtime → outcome A.

Definition ret {A} (a : A) : M A := fun s => Ok a s.

Definition bind {A B} (k : A → M B) (m : M A) : M B :=
  fun s => match m s with
           | Ok a s' => k a s'
           | Blocked => Blocked
           | Fatal msg => Fatal msg
           end.

Definition fatal {A} (msg : string) : M A := fun _ => Fatal msg.

(** The notations [x ← m; k] and [m;; k] are stdpp's, through its monad
    classes. *)
#[global] Instance M_ret : MRet M := @ret.
#[global] Instance M_bind : MBind M := @bind.

(** A C++ block that owns one guard object: the constructor runs, then the
    body, then the destructor, whichever value the body completes with. *)
Definition scoped {G A} (ctor : M G) (dtor : G → M unit) (body : G → M A) : M A :=
  g ← ctor;
  r ← body g;
  dtor g;;
  mret r.

(** How a block of workload code completes: normally with a value, or early
    with a C++ exception that propagates to the caller. *)
Inductive completion (A : Type) :=
  | Normal (a : A)
  | Thrown (what : string).
Arguments Normal {A} a.
Arguments Thrown {A} what.

(** ** The C API

    Every function takes the calling OS thread [t] as its first argument. *)

Definition set_initialized (b : bool) (s : runtime) : runtime :=
  mkRuntime b (gil s) (current s) (tstates s) (interps s)
            (next_tstate s) (next_interp s) (trace s) (stdout s).

Definition holds_gil (t : tid) (s : runtime) : bool :=
  bool_decide (gil s = Some t).

(** [Py_InitializeEx]: creates the main interpreter and its first thread
    state, makes that thread state current for the caller and leaves the
    caller holding the GIL.  A no-op when the runtime is initialized. *)
Definition Py_InitializeEx (t : tid) (initsigs : Z) : M unit := fun s =>
  if initialized s then Ok tt (emit (EvInitializeEx t) s)
  else
    let '(i, s1) := alloc_interp s in
    let '(a, s2) := alloc_tstate i s1 in
    Ok tt (emit (EvInitializeEx t)
             (set_initialized true (set_gil (Some t) (set_current_of t (Some a) s2)))).

(** [PyEval_InitThreads]: does nothing since 3.7, where [Py_InitializeEx]
    creates and takes the GIL itself. *)
Definition PyEval_InitThreads (t : tid) : M unit := fun s =>
  Ok tt (emit (EvInitThreads t) s).

(** [Py_Finalize]: destroys every interpreter and thread state.  The caller
    must hold the GIL with a current thread state. *)
Definition Py_Finalize (t : tid) : M unit := fun s =>
  if negb (initialized s) then Ok tt (emit (EvFinalize t) s)
  else if negb (holds_gil t s) then Fatal "Py_Finalize: the GIL is not held"
  else match current s !! t with
       | None => Fatal "Py_Finalize: no current thread state"
       | Some _ =>
           Ok tt (emit (EvFinalize t)
                    (mkRuntime false None ∅ ∅ ∅ (next_tstate s) (next_interp s)
                               (trace s) (stdout s)))
       end.

(** [PyEval_SaveThread]: releases the GIL and resets the caller's current
    thread state to NULL, returning the previous one, which is not NULL. *)
Definition PyEval_SaveThread (t : tid) : M (option addr) := fun s =>
  match current s !! t with
  | None => Fatal "PyEval_SaveThread: NULL tstate"
  | Some a =>
      if negb (holds_gil t s) then Fatal "PyEval_SaveThread: the GIL is not held"
      else Ok (Some a) (emit (EvSaveThread t a) (set_gil None (set_current_of t None s)))
  end.

(** [PyEval_RestoreThread(tstate)]: waits for the GIL, takes it and makes
    [tstate], which must not be NULL, the caller's current thread state. *)
Definition PyEval_RestoreThread (t : tid) (tstate : option addr) : M unit := fun s =>
  match tstate with
  | None => Fatal "PyEval_RestoreThread: NULL tstate"
  | Some a =>
      match gil s with
      | Some _ => Blocked
      | None =>
          Ok tt (emit (EvRestoreThread t a) (set_gil (Some t) (set_current_of t (Some a) s)))
      end
  end.

(** [PyThreadState_Get]: the caller's current thread state; a fatal error
    when it is NULL. *)
Definition PyThreadState_Get (t : tid) : M (option addr) := fun s =>
  match current s !! t with
  | None => Fatal "PyThreadState_Get: no current thread"
  | Some a => Ok (Some a) (emit (EvGet t a) s)
  end.

(** [PyThreadState_Swap(tstate)]: makes [tstate], which may be NULL, the
    caller's current thread state and returns the previous one.  The GIL
    must be held and is not released. *)
Definition PyThreadState_Swap (t : tid) (tstate : option addr) : M (option addr) := fun s =>
  if negb (holds_gil t s) then Fatal "PyThreadState_Swap: the GIL is not held"
  else
    let old := current s !! t in
    Ok old (emit (EvSwap t tstate old) (set_current_of t tstate s)).

(** [PyThreadState_New(interp)]: a new thread state belonging to [interp].
    The GIL need not be held. *)
Definition PyThreadState_New (t : tid) (i : interp_id) : M (option addr) := fun s =>
  match interps s !! i with
  | None => Fatal "PyThreadState_New: dead interpreter"
  | Some _ =>
      let '(a, s1) := alloc_tstate i s in
      Ok (Some a) (emit (EvNew t i a) s1)
  end.

(** [PyThreadState_Clear(tstate)]: resets all information in a live thread
    state.  The GIL must be held. *)
Definition PyThreadState_Clear (t : tid) (tstate : option addr) : M unit := fun s =>
  match tstate with
  | None => Fatal "PyThreadState_Clear: NULL tstate"
  | Some a =>
      match tstates s !! a with
      | None => Fatal "PyThreadState_Clear: dead tstate"
      | Some ts =>
          if negb (holds_gil t s) then Fatal "PyThreadState_Clear: the GIL is not held"
          else Ok tt (emit (EvClear t a)
                        (set_tstates (<[a := mkThreadState (interp ts) true]> (tstates s)) s))
      end
  end.

(** [PyThreadState_DeleteCurrent]: destroys the caller's current thread
    state and releases the GIL, which must be held. *)
Definition PyThreadState_DeleteCurrent (t : tid) : M unit := fun s =>
  match current s !! t with
  | None => Fatal "PyThreadState_DeleteCurrent: no current tstate"
  | Some a =>
      match tstates s !! a with
      | None => Fatal "PyThreadState_DeleteCurrent: dead tstate"
      | Some _ =>
          if negb (holds_gil t s)
          then Fatal "PyThreadState_DeleteCurrent: the GIL is not held"
          else Ok tt (emit (EvDeleteCurrent t a)
                        (set_gil None
                           (set_current_of t None
                              (set_tstates (delete a (tstates s)) s))))
      end
  end.

(** [Py_NewInterpreter]: a new sub-interpreter with its own [sys] module; its
    first thread state becomes the caller's current one and is returned.
    When creation is unsuccessful ([ok = false]) NULL is returned and the
    current thread state is the one from before the call.  The GIL must be
    held and is still held on return. *)
Definition Py_NewInterpreter (t : tid) (ok : bool) : M (option addr) := fun s =>
  if negb (initialized s) then Fatal "Py_NewInterpreter: Py_Initialize must be called first"
  else if negb (holds_gil t s) then Fatal "Py_NewInterpreter: the GIL is not held"
  else if ok then
    let '(i, s1) := alloc_interp s in
    let '(a, s2) := alloc_tstate i s1 in
    Ok (Some a) (emit (EvNewInterpreter t (Some a)) (set_current_of t (Some a) s2))
  else Ok None (emit (EvNewInterpreter t None) s).

(** No thread state other than [a] belongs to interpreter [i]. *)
Definition last_thread (a : addr) (i : interp_id) (s : runtime) : bool :=
  bool_decide (map_Forall (λ a' ts, interp ts = i → a' = a) (tstates s)).

(** [Py_EndInterpreter(tstate)]: destroys the sub-interpreter of [tstate],
    which must be the caller's current thread state and the last one of its
    interpreter.  On return the current thread state is NULL; the GIL is
    held before and after. *)
Definition Py_EndInterpreter (t : tid) (tstate : option addr) : M unit := fun s =>
  match tstate with
  | None => Fatal "Py_EndInterpreter: NULL tstate"
  | Some a =>
      if negb (holds_gil t s) then Fatal "Py_EndInterpreter: the GIL is not held"
      else if negb (bool_decide (current s !! t = Some a))
      then Fatal "Py_EndInterpreter: thread is not current"
      else match tstates s !! a with
           | None => Fatal "Py_EndInterpreter: dead tstate"
           | Some ts =>
               if negb (last_thread a (interp ts) s)
               then Fatal "Py_EndInterpreter: not the last thread"
               else Ok tt (emit (EvEndInterpreter t a)
                             (set_current_of t None
                                (set_interps (delete (interp ts) (interps s))
                                   (set_tstates (delete a (tstates s)) s))))
           end
  end.

(** [tstate->interp]. *)
Definition tstate_interp (tstate : option addr) : M interp_id := fun s =>
  match tstate with
  | None => Fatal "NULL thread state dereferenced"
  | Some a =>
      match tstates s !! a with
      | None => Fatal "dead thread state dereferenced"
      | Some ts => Ok (interp ts) s
      end
  end.

(** ** The embedded Python scripts

    The two scripts of [main.cpp] only import [sys], assign one of its
    attributes and print a formatted line; this fragment of Python is all
    that [PyRun_SimpleString] has to run. *)

Inductive expr :=
  | ELit (v : pyval)
  | ESysAttr (name : string)                       (* sys.name *)
  | EGetattrSys (name : string) (default : expr).  (* getattr(sys, 'name', default) *)

Inductive stmt :=
  | SImport (module : string)                      (* import module *)
  | SSetSysAttr (name : string) (e : expr)         (* sys.name = e *)
  | SPrintFormat (fmt : string) (e : expr).        (* print(fmt.format(e)) *)

Fixpoint py_repr (v : pyval) : string :=
  match v with
  | PyStr s => "'" ++ s ++ "'"
  | PyList l => "[" ++ String.concat ", " (List.map py_repr l) ++ "]"
  end.

Definition py_str (v : pyval) : string :=
  match v with
  | PyStr s => s
  | PyList _ => py_repr v
  end.

(** [fmt.format(arg)] for a format string with one [{}] field. *)
Fixpoint py_format (fmt arg : string) : string :=
  match fmt with
  | String "{"%char (String "}"%char rest) => arg ++ rest
  | String c rest => String c (py_format rest arg)
  | EmptyString => EmptyString
  end.

(** Evaluation in the namespace of [sys]; [None] is an [AttributeError]. *)
Fixpoint eval (ns : gmap string pyval) (e : expr) : option pyval :=
  match e with
  | ELit v => Some v
  | ESysAttr name => ns !! name
  | EGetattrSys name default =>
      match ns !! name with
      | Some v => Some v
      | None => eval ns default
      end
  end.

(** One statement: the new namespace and the line printed, if any; [None]
    when an exception is raised. *)
Definition exec_stmt (ns : gmap string pyval) (c : stmt)
  : option (gmap string pyval * list string) :=
  match c with
  | SImport _ => Some (ns, [])
  | SSetSysAttr name e => v ← eval ns e; Some (<[name := v]> ns, [])
  | SPrintFormat fmt e => v ← eval ns e; Some (ns, [py_format fmt (py_str v)])
  end.

(** A script runs until its end (status 0) or its first exception
    (status -1); what it did before the exception stays done. *)
Fixpoint exec (ns : gmap string pyval) (code : list stmt)
  : Z * gmap string pyval * list string :=
  match code with
  | [] => (0%Z, ns, [])
  | c :: code' =>
      match exec_stmt ns c with
      | None => ((-1)%Z, ns, [])
      | Some (ns1, out1) =>
          let '(status, ns2, out2) := exec ns1 code' in
          (status, ns2, (out1 ++ out2)%list)
      end
  end.

(** [PyRun_SimpleString(code)]: runs [code] in the interpreter of the
    caller's current thread state.  The GIL must be held. *)
Definition PyRun_SimpleString (t : tid) (code : list stmt) : M Z := fun s =>
  if negb (holds_gil t s) then Fatal "PyRun_SimpleString: the GIL is not held"
  else match current s !! t with
       | None => Fatal "PyRun_SimpleString: no current thread state"
       | Some a =>
           match tstates s !! a with
           | None => Fatal "PyRun_SimpleString: dead tstate"
           | Some ts =>
               match interps s !! interp ts with
               | None => Fatal "PyRun_SimpleString: dead interpreter"
               | Some ist =>
                   let '(status, ns, out) := exec (sys ist) code in
                   Ok status
                      (emit (EvRunSimpleString t (interp ts))
                         (mkRuntime (initialized s) (gil s) (current s) (tstates s)
                            (<[interp ts := mkInterpreterState ns]> (interps s))
                            (next_tstate s) (next_interp s) (trace s)
                            (stdout s ++ out)%list))
               end
           end
       end.

(** ** The guards of [main.cpp] *)

(** [struct initialize]: initialize and clean up python. *)
Module initialize.
Record t := mk { }.

Definition ctor (th : tid) : M t :=
  Py_InitializeEx th 1;;
  PyEval_InitThreads th;;
  mret mk.

Definition dtor (th : tid) (self : t) : M unit :=
  Py_Finalize th.
End initialize.

(** [class enable_threads_scope]: allow other threads to run. *)
Module enable_threads_scope.
Record t := mk { _state : option addr }.

Definition ctor (th : tid) : M t :=
  st ← PyEval_SaveThread th;
  mret (mk st).

Definition dtor (th : tid) (self : t) : M unit :=
  PyEval_RestoreThread th (_state self).
End enable_threads_scope.

(** [class restore_tstate_scope]: restore the thread state when the object
    goes out of scope. *)
Module restore_tstate_scope.
Record t := mk { _ts : option addr }.

Definition ctor (th : tid) : M t :=
  ts ← PyThreadState_Get th;
  mret (mk ts).

Definition dtor (th : tid) (self : t) : M unit :=
  PyThreadState_Swap th (_ts self);;
  mret tt.
End restore_tstate_scope.

(** [class swap_tstate_scope]: swap the current thread state with [ts],
    restore when the object goes out of scope. *)
Module swap_tstate_scope.
Record t := mk { _ts : option addr }.

Definition ctor (th : tid) (ts : option addr) : M t :=
  old ← PyThreadState_Swap th ts;
  mret (mk old).

Definition dtor (th : tid) (self : t) : M unit :=
  PyThreadState_Swap th (_ts self);;
  mret tt.
End swap_tstate_scope.

(** [class thread_state]: create a new thread state for interpreter
    [interp], make it current, and clean up on destruction. *)
Module thread_state.
Record t := mk { _ts : option addr }.

Definition ctor (th : tid) (i : interp_id) : M t :=
  ts ← PyThreadState_New th i;
  PyEval_RestoreThread th ts;;
  mret (mk ts).

Definition dtor (th : tid) (self : t) : M unit :=
  PyThreadState_Clear th (_ts self);;
  PyThreadState_DeleteCurrent th.

(** [operator PyThreadState*()] *)
Definition to_ptr (self : t) : option addr := _ts self.

Definition current (th : tid) : M (option addr) :=
  PyThreadState_Get th.
End thread_state.

(** [class sub_interpreter]: represent a sub interpreter. *)
Module sub_interpreter.

(** [struct thread_scope]: the setup and cleanup for a new thread running
    in a specific interpreter.  The members are constructed in the order
    of their declaration and destroyed in the opposite order. *)
Module thread_scope.
Record t := mk {
  _state : thread_state.t;
  _swap : swap_tstate_scope.t
}.

Definition ctor (th : tid) (i : interp_id) : M t :=
  st ← thread_state.ctor th i;
  sw ← swap_tstate_scope.ctor th (thread_state.to_ptr st);
  mret (mk st sw).

Definition dtor (th : tid) (self : t) : M unit :=
  swap_tstate_scope.dtor th (_swap self);;
  thread_state.dtor th (_state self).
End thread_scope.

Record t := mk { _ts : option addr }.

(** [ok] tells whether [Py_NewInterpreter] succeeds. *)
Definition ctor (th : tid) (ok : bool) : M t :=
  scoped (restore_tstate_scope.ctor th) (restore_tstate_scope.dtor th)
    (fun restore =>
       ts ← Py_NewInterpreter th ok;
       mret (mk ts)).

Definition dtor (th : tid) (self : t) : M unit :=
  match _ts self with
  | Some _ =>
      scoped (swap_tstate_scope.ctor th (_ts self)) (swap_tstate_scope.dtor th)
        (fun sts => Py_EndInterpreter th (_ts self))
  | None => mret tt
  end.

Definition interp (self : t) : M interp_id :=
  tstate_interp (_ts self).

Definition current (th : tid) : M interp_id :=
  ts ← thread_state.current th;
  tstate_interp ts.
End sub_interpreter.

(** A thread that enters a [thread_scope] for interpreter [i] and runs
    [body] inside it: the shape of [f]. *)
Definition in_thread_scope {A} (th : tid) (i : interp_id) (body : M A) : M A :=
  scoped (sub_interpreter.thread_scope.ctor th i)
         (sub_interpreter.thread_scope.dtor th)
         (fun scope => body).

(** The script of [f], with [TNAME] replaced by the thread's name. *)
Definition f_code (tname : string) : list stmt :=
  [ SImport "sys";
    SPrintFormat (tname ++ ": sys.xxx={}")
                 (EGetattrSys "xxx" (ELit (PyStr "attribute not set"))) ].

(** [void f(PyInterpreterState* interp, const char* tname)]: runs in a new
    thread. *)
Definition f (th : tid) (i : interp_id) (tname : string) : M unit :=
  let code := f_code tname in
  in_thread_scope th i (PyRun_SimpleString th code;; mret tt).

(** The script of [main]. *)
Definition main_code : list stmt :=
  [ SImport "sys";
    SSetSysAttr "xxx" (ELit (PyList [PyStr "abc"]));
    SPrintFormat "main: setting sys.xxx={}" (ESysAttr "xxx") ].

(** Rebinding operations a thread can perform inside a scope: a plain swap to
    [target], or the creation of a sub-interpreter, which rebinds the caller
    to the new interpreter's first thread state. *)
Inductive rebinding :=
  | RebindSwap (target : option addr)
  | RebindNewInterpreter (ok : bool).

Definition rebind (th : tid) (r : rebinding) : M unit :=
  match r with
  | RebindSwap target => PyThreadState_Swap th target;; mret tt
  | RebindNewInterpreter ok => Py_NewInterpreter th ok;; mret tt
  end.

Fixpoint rebind_all (th : tid) (rs : list rebinding) : M unit :=
  match rs with
  | [] => mret tt
  | r :: rs' => rebind th r;; rebind_all th rs'
  end.

(** The allocators hand out addresses that are not in use. *)
Definition wf_alloc (s : runtime) : Prop :=
  map_Forall (λ a _, a < next_tstate s) (tstates s) ∧
  map_Forall (λ i _, i < next_interp s) (interps s).

(** The state of [main] after [initialize init]. *)
Definition after_init : runtime :=
  match initialize.ctor 0 boot with
  | Ok _ s => s
  | _ => boot
  end.

(** The state of [main] once [enable_threads_scope t] is constructed right
    after [initialize init]: the GIL is free. *)
Definition after_release : runtime :=
  match enable_threads_scope.ctor 0 after_init with
  | Ok _ s => s
  | _ => boot
  end.

(** ** The threads of [main]

    [main] and the four threads it starts are run as an interleaving of
    atomic steps, one API call (or one guard operation that cannot wait)
    each.  A step is labelled with the API calls it made; the runtime kept
    in a configuration carries an empty [trace]. *)

Definition set_trace (tr : list event) (s : runtime) : runtime :=
  mkRuntime (initialized s) (gil s) (current s) (tstates s) (interps s)
            (next_tstate s) (next_interp s) tr (stdout s).

(** A thread running [f]: its program counter, the arguments of [f] and the
    two members of [scope]. *)
Record worker := mkWorker {
  w_pc : nat;
  w_interp : interp_id;
  w_tname : string;
  w_state : thread_state.t;
  w_swap : swap_tstate_scope.t
}.

Definition new_worker (i : interp_id) (tname : string) : worker :=
  mkWorker 0 i tname (thread_state.mk None) (swap_tstate_scope.mk None).

Definition at_pc (pc : nat) (w : worker) : worker :=
  mkWorker pc (w_interp w) (w_tname w) (w_state w) (w_swap w).

(** The steps of [f]: the constructor of [scope._state] (two calls, the
    second of which may wait), the constructor of [scope._swap], the script,
    the destructor of [scope._swap], the destructor of [scope._state] (two
    calls). *)
Definition worker_step (th : tid) (w : worker) : M worker :=
  match w_pc w with
  | 0 => ts ← PyThreadState_New th (w_interp w);
         mret (mkWorker 1 (w_interp w) (w_tname w) (thread_state.mk ts) (w_swap w))
  | 1 => PyEval_RestoreThread th (thread_state._ts (w_state w));;
         mret (at_pc 2 w)
  | 2 => sw ← swap_tstate_scope.ctor th (thread_state.to_ptr (w_state w));
         mret (mkWorker 3 (w_interp w) (w_tname w) (w_state w) sw)
  | 3 => PyRun_SimpleString th (f_code (w_tname w));;
         mret (at_pc 4 w)
  | 4 => swap_tstate_scope.dtor th (w_swap w);;
         mret (at_pc 5 w)
  | 5 => PyThreadState_Clear th (thread_state._ts (w_state w));;
         mret (at_pc 6 w)
  | 6 => PyThreadState_DeleteCurrent th;;
         mret (mkWorker 7 (w_interp w) (w_tname w)
                        (thread_state.mk None) (swap_tstate_scope.mk None))
  | _ => mret w
  end.

Fixpoint worker_run (n : nat) (th : tid) (w : worker) : M worker :=
  match n with
  | 0 => mret w
  | S n' => w' ← worker_step th w; worker_run n' th w'
  end.

(** The whole process: the runtime, the program counter and the locals of
    [main] ([init] has no fields), and the threads [t1] .. [t4] started so
    far, under the thread ids 1 .. 4; [main] runs on thread 0. *)
Record config := mkConfig {
  rt : runtime;
  main_pc : nat;
  main_s1 : sub_interpreter.t;
  main_s2 : sub_interpreter.t;
  main_t : enable_threads_scope.t;
  threads : gmap tid worker
}.

Inductive step_result :=
  | Stepped (label : list event) (c : config)
  | Waiting
  | Crashed (msg : string)
  | Finished.

(** One statement of [main] that runs [m] and stores its result with [k]. *)
Definition run_main {A} (m : M A) (c : config) (k : A → config → config) : step_result :=
  match m (rt c) with
  | Ok a s =>
      Stepped (trace s)
        (k a (mkConfig (set_trace [] s) (S (main_pc c)) (main_s1 c) (main_s2 c)
                       (main_t c) (threads c)))
  | Blocked => Waiting
  | Fatal msg => Crashed msg
  end.

(** [std::thread t{f, i, tname}] *)
Definition spawn (th : tid) (i : interp_id) (tname : string) (c : config) : config :=
  mkConfig (rt c) (main_pc c) (main_s1 c) (main_s2 c) (main_t c)
           (<[th := new_worker i tname]> (threads c)).

(** [t.join()]: waits until the thread has returned from [f]. *)
Definition join (th : tid) (c : config) : step_result :=
  match threads c !! th with
  | Some w =>
      if decide (w_pc w = 7)
      then Stepped [] (mkConfig (rt c) (S (main_pc c)) (main_s1 c) (main_s2 c)
                                (main_t c) (threads c))
      else Waiting
  | None => Crashed "join: the thread is not joinable"
  end.

(** [int main()], statement by statement, then the destructors of its locals
    in the opposite order of their construction.  [ok1] and [ok2] tell
    whether the two sub-interpreters can be created. *)
Definition main_step (ok1 ok2 : bool) (c : config) : step_result :=
  match main_pc c with
  | 0 => run_main (initialize.ctor 0) c (λ _ c, c)
  | 1 => run_main (sub_interpreter.ctor 0 ok1) c
           (λ g c, mkConfig (rt c) (main_pc c) g (main_s2 c) (main_t c) (threads c))
  | 2 => run_main (sub_interpreter.ctor 0 ok2) c
           (λ g c, mkConfig (rt c) (main_pc c) (main_s1 c) g (main_t c) (threads c))
  | 3 => run_main (PyRun_SimpleString 0 main_code) c (λ _ c, c)
  | 4 => run_main (sub_interpreter.interp (main_s1 c)) c (λ i c, spawn 1 i "t1(s1)" c)
  | 5 => run_main (sub_interpreter.interp (main_s2 c)) c (λ i c, spawn 2 i "t2(s2)" c)
  | 6 => run_main (sub_interpreter.interp (main_s1 c)) c (λ i c, spawn 3 i "t3(s1)" c)
  | 7 => run_main (sub_interpreter.current 0) c (λ i c, spawn 4 i "t4(main)" c)
  | 8 => run_main (enable_threads_scope.ctor 0) c
           (λ g c, mkConfig (rt c) (main_pc c) (main_s1 c) (main_s2 c) g (threads c))
  | 9 => join 1 c
  | 10 => join 2 c
  | 11 => join 3 c
  | 12 => join 4 c
  | 13 => run_main (enable_threads_scope.dtor 0 (main_t c)) c (λ _ c, c)
  | 14 => run_main (sub_interpreter.dtor 0 (main_s2 c)) c (λ _ c, c)
  | 15 => run_main (sub_interpreter.dtor 0 (main_s1 c)) c (λ _ c, c)
  | 16 => run_main (initialize.dtor 0 initialize.mk) c (λ _ c, c)
  | _ => Finished
  end.

(** The next step of thread [th]. *)
Definition cstep (ok1 ok2 : bool) (th : tid) (c : config) : step_result :=
  match th with
  | 0 => main_step ok1 ok2 c
  | _ =>
      match threads c !! th with
      | None => Finished
      | Some w =>
          if decide (w_pc w = 7) then Finished
          else match worker_step th w (rt c) with
               | Ok w' s =>
                   Stepped (trace s)
                     (mkConfig (set_trace [] s) (main_pc c) (main_s1 c) (main_s2 c)
                               (main_t c) (<[th := w']> (threads c)))
               | Blocked => Waiting
               | Fatal msg => Crashed msg
               end
      end
  end.

(** The process when [main] is entered. *)
Definition start : config :=
  mkConfig boot 0 (sub_interpreter.mk None) (sub_interpreter.mk None)
           (enable_threads_scope.mk None) ∅.

(** The configurations the process can be in when both sub-interpreters can
    be created, under any scheduling of its threads. *)
Inductive reachable : config → Prop :=
  | reachable_start : reachable start
  | reachable_step c th label c' :
      reachable c → cstep true true th c = Stepped label c' → reachable c'.

(** A scheduler that gives the processor to the listed threads in turn; a
    thread that cannot step is skipped. *)
Fixpoint run_schedule (sched : list tid) (c : config) : config :=
  match sched with
  | [] => c
  | th :: sched' =>
      match cstep true true th c with
      | Stepped _ c' => run_schedule sched' c'
      | _ => run_schedule sched' c
      end
  end.

(** Where a thread holds the GIL according to its program: [main] from the
    end of [initialize]'s constructor to the release in
    [enable_threads_scope]'s constructor and from the restore in its
    destructor to [Py_Finalize]; a worker from [PyEval_RestoreThread] to
    [PyThreadState_DeleteCurrent]. *)
Definition main_holds (pc : nat) : bool :=
  ((1 <=? pc) && (pc <=? 8) || (14 <=? pc) && (pc <=? 16))%nat.

Definition worker_holds (w : worker) : bool :=
  ((2 <=? w_pc w) && (w_pc w <=? 6))%nat.

Definition holds_token (c : config) (th : tid) : bool :=
  match th with
  | 0 => main_holds (main_pc c)
  | _ => match threads c !! th with
         | Some w => worker_holds w
         | None => false
         end
  end.


(** The thread's next step is the [PyEval_RestoreThread] of an attach
    ([thread_state]'s constructor) or of a restore ([enable_threads_scope]'s
    destructor). *)
Definition acquire_site (c : config) (th : tid) : bool :=
  match th with
  | 0 => (main_pc c =? 13)%nat
  | _ => match threads c !! th with
         | Some w => (w_pc w =? 1)%nat
         | None => false
         end
  end.

(** The lines the scenario is expected to print. *)
Definition main_line : string := "main: setting sys.xxx=['abc']".

Definition worker_lines : list string :=
  [ "t1(s1): sys.xxx=attribute not set";
    "t2(s2): sys.xxx=attribute not set";
    "t3(s1): sys.xxx=attribute not set";
    "t4(main): sys.xxx=['abc']" ].

(** ** Exhaustive exploration of the interleavings

    The process has finitely many configurations.  They are enumerated by a
    worklist search, kept in buckets under a hash of the program counters,
    and the set found is then checked to be closed under every step. *)

#[global] Instance pyval_eq_dec : EqDecision pyval.
Proof.
  refine (fix go (x y : pyval) : Decision (x = y) :=
    match x, y with
    | PyStr s1, PyStr s2 => cast_if (decide (s1 = s2))
    | PyList l1, PyList l2 => cast_if (@list_eq_dec _ go l1 l2)
    | _, _ => right _
    end); abstract congruence.
Defined.

#[global] Instance PyThreadState_eq_dec : EqDecision PyThreadState.
Proof. solve_decision. Defined.

#[global] Instance PyInterpreterState_eq_dec : EqDecision PyInterpreterState.
Proof. solve_decision. Defined.

#[global] Instance event_eq_dec : EqDecision event.
Proof. solve_decision. Defined.

#[global] Instance runtime_eq_dec : EqDecision runtime.
Proof. solve_decision. Defined.

#[global] Instance thread_state_eq_dec : EqDecision thread_state.t.
Proof. solve_decision. Defined.

#[global] Instance swap_tstate_scope_eq_dec : EqDecision swap_tstate_scope.t.
Proof. solve_decision. Defined.

#[global] Instance sub_interpreter_eq_dec : EqDecision sub_interpreter.t.
Proof. solve_decision. Defined.

#[global] Instance enable_threads_scope_eq_dec : EqDecision enable_threads_scope.t.
Proof. solve_decision. Defined.

#[global] Instance worker_eq_dec : EqDecision worker.
Proof. solve_decision. Defined.

#[global] Instance config_eq_dec : EqDecision config.
Proof. solve_decision. Defined.

Definition all_threads : list tid := [0; 1; 2; 3; 4].

Definition pc_of (th : tid) (c : config) : N :=
  match threads c !! th with
  | Some w => N.of_nat (w_pc w)
  | None => 8%N
  end.

Definition hash (c : config) : N :=
  (N.of_nat (main_pc c)
   + 32 * (pc_of 1 c + 16 * (pc_of 2 c + 16 * (pc_of 3 c + 16 * pc_of 4 c))))%N.

Definition seen (c : config) (v : gmap N (list config)) : bool :=
  match v !! hash c with
  | Some l => existsb (λ c', bool_decide (c = c')) l
  | None => false
  end.

Definition add (c : config) (v : gmap N (list config)) : gmap N (list config) :=
  <[hash c := c :: default [] (v !! hash c)]> v.

Definition successors (c : config) : list config :=
  omap (λ th, match cstep true true th c with
              | Stepped _ c' => Some c'
              | _ => None
              end) all_threads.

Fixpoint explore (fuel : nat) (frontier : list config) (v : gmap N (list config))
  : gmap N (list config) :=
  match fuel with
  | 0 => v
  | S fuel' =>
      match frontier with
      | [] => v
      | c :: rest =>
          let '(fr, v') :=
            foldr (λ c' '(fr, v), if seen c' v then (fr, v) else (c' :: fr, add c' v))
                  (rest, v) (successors c) in
          explore fuel' fr v'
      end
  end.

Definition reach : gmap N (list config) :=
  explore (200 * 100) [start] (add start ∅).

(** The number of steps the threads have made. *)
Definition steps_done (c : config) : nat :=
  main_pc c + map_fold (λ _ w n, w_pc w + n) 0 (threads c).

Definition can_step (c : config) (th : tid) : bool :=
  match cstep true true th c with
  | Stepped _ _ => true
  | _ => false
  end.

(** The label of a step that takes the GIL for [th]. *)
Definition is_acquire (th : tid) (label : list event) : bool :=
  match label with
  | [EvRestoreThread th' _] => bool_decide (th' = th)
  | _ => false
  end.

(** What is checked of every configuration: the threads are [t1] .. [t4];
    the GIL is held by exactly the thread whose program says so; the lines
    printed are expected ones, each at most once, beginning with the line of
    [main], and all of them once [main] has returned; no interpreter but the
    main one ever has an attribute in [sys], and the main one has [xxx] only;
    some thread can step unless [main] has returned. *)
Definition config_inv (c : config) : Prop :=
  map_Forall (λ (th : tid) (_ : worker), (1 ≤ th ≤ 4)%nat) (threads c)
  ∧ Forall (λ th, holds_token c th = bool_decide (gil (rt c) = Some th)) all_threads
  ∧ gil (rt c) ∈ None :: (Some <$> all_threads)
  ∧ Forall (λ line, line ∈ main_line :: worker_lines) (stdout (rt c))
  ∧ NoDup (stdout (rt c))
  ∧ ((4 ≤ main_pc c)%nat → head (stdout (rt c)) = Some main_line)
  ∧ (main_pc c = 17 → stdout (rt c) ≡ₚ main_line :: worker_lines)
  ∧ map_Forall (λ i ist,
       sys ist = if decide (i = 1)
                 then if decide (main_pc c ≤ 3)%nat then ∅
                      else {[ "xxx" := PyList [PyStr "abc"] ]}
                 else ∅) (interps (rt c))
  ∧ (main_pc c = 17 ∨ Exists (λ th, can_step c th = true) all_threads)
  ∧ (steps_done c ≤ 45)%nat.

#[global] Instance config_inv_dec c : Decision (config_inv c).
Proof. unfold config_inv. apply _. Defined.

(** What is checked of a step of [th] from [c] to [c'] with label [label]:
    it makes [th] a holder of the GIL of the initialized runtime only at an
    acquire site; at an acquire site the GIL was free and the step is a
    [PyEval_RestoreThread] that leaves [th] holding it; one more step has
    been made. *)
Definition step_props (c : config) (th : tid) (label : list event) (c' : config) : Prop :=
  (initialized (rt c) = true → holds_token c th = false → holds_token c' th = true →
   acquire_site c th = true)
  ∧ (acquire_site c th = true →
     gil (rt c) = None ∧ is_acquire th label = true ∧ holds_token c' th = true)
  ∧ steps_done c' = S (steps_done c).

#[global] Instance step_props_dec c th label c' : Decision (step_props c th label c').
Proof. unfold step_props. apply _. Defined.

(** What is checked of the next step of every thread: it does not crash and
    leads to a configuration of the set, and a thread at an acquire site
    either waits or takes the free GIL. *)
Definition step_inv (v : gmap N (list config)) (c : config) (th : tid) : bool :=
  match cstep true true th c with
  | Stepped label c' => seen c' v && bool_decide (step_props c th label c')
  | Waiting => true
  | Crashed _ => false
  | Finished => negb (acquire_site c th)
  end.

Definition closed (v : gmap N (list config)) : bool :=
  forallb (λ '(_, l),
     forallb (λ c, bool_decide (config_inv c) && forallb (step_inv v c) all_threads) l)
    (map_to_list v).

Definition checked (v : gmap N (list config)) : bool :=
  seen start v && closed v.

(** A schedule under which [main] runs to its end: the threads get the GIL
    in the order t2, t4, t1, t3. *)
Definition a_schedule : list tid :=
  [0; 0; 0; 0; 0; 1; 0; 0; 0; 2; 0; 3; 4;
   2; 2; 2; 2; 2; 2;  4; 4; 4; 4; 4; 4;  1; 1; 1; 1; 1; 1;  3; 3; 3; 3; 3; 3;
   0; 0; 0; 0; 0; 0; 0; 0].


Definition busy : config := run_schedule (take 15 a_schedule) start.

(** No thread state refers to an interpreter the allocator has yet to hand
    out. *)
Definition wf_refs (s : runtime) : Prop :=
  map_Forall (λ _ ts, (interp ts < next_interp s)%nat) (tstates s).

(** [swap_tstate_scope] objects in nested blocks, the first target in the
    outermost block, with [body] in the innermost one. *)
Fixpoint nested_swaps {A} (th : tid) (targets : list (option addr)) (body : M A) : M A :=
  match targets with
  | [] => body
  | target :: targets' =>
      scoped (swap_tstate_scope.ctor th target) (swap_tstate_scope.dtor th)
             (fun _ => nested_swaps th targets' body)
  end.


(** The configurations the process can be in, for either outcome of the two
    sub-interpreter creations. *)
Inductive reachable_with (ok1 ok2 : bool) : config → Prop :=
  | reachable_with_start : reachable_with ok1 ok2 start
  | reachable_with_step c th label c' :
      reachable_with ok1 ok2 c → cstep ok1 ok2 th c = Stepped label c' →
      reachable_with ok1 ok2 c'.

(** The state of [main] after [sub_interpreter s1], constructed right after
    [initialize init]. *)
Definition after_s1 : runtime :=
  match sub_interpreter.ctor 0 true after_init with
  | Ok _ s => s
  | _ => boot
  end.

(** The threads of [main], by thread id. *)
Definition worker_ids : list tid := [1; 2; 3; 4].

(** The thread state a worker's [thread_state] object points to. *)
Definition worker_tstate (c : config) (th : tid) : option addr :=
  w ← threads c !! th; thread_state.to_ptr (w_state w).

(** [p->interp] for a pointer to a live thread state. *)
Definition interp_at (c : config) (p : option addr) : option interp_id :=
  a ← p; ts ← tstates (rt c) !! a; Some (interp ts).

(** The thread state [main] is or will again be bound to: its current one,
    or the one kept by [enable_threads_scope t] while the GIL is released. *)
Definition main_tstate (c : config) : option addr :=
  if decide (9 ≤ main_pc c ≤ 13)%nat
  then enable_threads_scope._state (main_t c)
  else current (rt c) !! 0.

(** The pointers to thread states held by the objects of the program. *)
Definition owners (c : config) : list (option addr) :=
  [ main_tstate c;
    sub_interpreter._ts (main_s1 c);
    sub_interpreter._ts (main_s2 c);
    worker_tstate c 1; worker_tstate c 2; worker_tstate c 3; worker_tstate c 4 ].

(** What is checked of a thread that runs [f]: while it is between the two
    calls of [thread_state]'s constructor and the end of its destructor, its
    [thread_state] points to a live thread state of the interpreter it was
    started with, cleared only before the last call, and that interpreter is
    alive; from the second call on that thread state is its current one;
    before and after, the object points to nothing. *)
Definition worker_inv (c : config) (th : tid) (w : worker) : Prop :=
  (w_pc w ≤ 7)%nat
  ∧ ((1 ≤ w_pc w ≤ 6)%nat →
     (a ← thread_state.to_ptr (w_state w); tstates (rt c) !! a)
     = Some (mkThreadState (w_interp w) (bool_decide (w_pc w = 6)))
     ∧ is_Some (interps (rt c) !! w_interp w))
  ∧ ((2 ≤ w_pc w ≤ 6)%nat →
     current (rt c) !! th = thread_state.to_ptr (w_state w))
  ∧ (w_pc w = 0 ∨ w_pc w = 7 → thread_state.to_ptr (w_state w) = None).

#[global] Instance worker_inv_dec c th w : Decision (worker_inv c th w).
Proof. unfold worker_inv. apply _. Defined.

(** What else is checked of every configuration. *)
Definition config_inv2 (c : config) : Prop :=
  (* the threads start after their spawn, run after the release, and have
     returned when they are joined *)
  Forall (λ th, is_Some (threads c !! th) ↔ (4 + th ≤ main_pc c)%nat) worker_ids
  ∧ ((main_pc c ≤ 8)%nat → map_Forall (λ _ w, (w_pc w ≤ 1)%nat) (threads c))
  ∧ Forall (λ th, (9 + th ≤ main_pc c)%nat → w_pc <$> threads c !! th = Some 7) worker_ids
  (* the thread states *)
  ∧ map_Forall (worker_inv c) (threads c)
  ∧ NoDup (omap (worker_tstate c) worker_ids)
  ∧ map_Forall (λ (a : addr) (_ : PyThreadState), Some a ∈ owners c) (tstates (rt c))
  ∧ map_Forall (λ (th : tid) (_ : addr), holds_token c th = true) (current (rt c))
  ∧ Forall (λ th, holds_token c th = true → is_Some (current (rt c) !! th)) all_threads
  ∧ wf_alloc (rt c)
  ∧ wf_refs (rt c)
  (* the interpreters the threads are started with *)
  ∧ Forall (λ th, is_Some (threads c !! th) → (main_pc c ≤ 13)%nat →
                  w_interp <$> threads c !! th
                  = interp_at c (sub_interpreter._ts (main_s1 c))) [1; 3]
  ∧ (is_Some (threads c !! 2) → (main_pc c ≤ 13)%nat →
     w_interp <$> threads c !! 2 = interp_at c (sub_interpreter._ts (main_s2 c)))
  ∧ (is_Some (threads c !! 4) → (main_pc c ≤ 13)%nat →
     w_interp <$> threads c !! 4 = interp_at c (main_tstate c))
  ∧ ((5 ≤ main_pc c ≤ 13)%nat →
     is_Some (interp_at c (main_tstate c))
     ∧ is_Some (interp_at c (sub_interpreter._ts (main_s1 c)))
     ∧ is_Some (interp_at c (sub_interpreter._ts (main_s2 c)))
     ∧ NoDup [interp_at c (main_tstate c);
              interp_at c (sub_interpreter._ts (main_s1 c));
              interp_at c (sub_interpreter._ts (main_s2 c))])
  (* the end *)
  ∧ (main_pc c = 17 →
     initialized (rt c) = false ∧ gil (rt c) = None ∧ current (rt c) = ∅
     ∧ tstates (rt c) = ∅ ∧ interps (rt c) = ∅).

#[global] Instance config_inv2_dec c : Decision (config_inv2 c).
Proof. unfold config_inv2, wf_alloc, wf_refs. apply _. Defined.

Definition closed2 (v : gmap N (list config)) : bool :=
  forallb (λ '(_, l), forallb (λ c, bool_decide (config_inv2 c)) l) (map_to_list v).

(** [run_schedule] for either outcome of the two creations. *)
Fixpoint run_schedule_with (ok1 ok2 : bool) (sched : list tid) (c : config) : config :=
  match sched with
  | [] => c
  | th :: sched' =>
      match cstep ok1 ok2 th c with
      | Stepped _ c' => run_schedule_with ok1 ok2 sched' c'
      | _ => run_schedule_with ok1 ok2 sched' c
      end
  end.

(** The statement of [main] that uses the first sub-interpreter whose
    creation failed: the start of [t1] for [s1], of [t2] for [s2]. *)
Definition crash_pc (ok1 : bool) : nat := if ok1 then 5 else 4.

Definition crashes_null (r : step_result) : bool :=
  match r with
  | Crashed msg => bool_decide (msg = "NULL thread state dereferenced")
  | _ => false
  end.

Definition steps (r : step_result) : bool :=
  match r with
  | Stepped _ _ => true
  | _ => false
  end.

(** What is checked of the configurations of a run in which a creation
    fails. *)
Definition crash_inv (ok1 ok2 : bool) (c : config) : Prop :=
  map_Forall (λ (th : tid) w, th = 1 ∧ (w_pc w ≤ 1)%nat) (threads c)
  ∧ (main_pc c ≤ crash_pc ok1)%nat
  ∧ (main_pc c = crash_pc ok1 → crashes_null (cstep ok1 ok2 0 c) = true)
  ∧ ((main_pc c < crash_pc ok1)%nat → steps (cstep ok1 ok2 0 c) = true)
  ∧ Forall (λ line, line = main_line) (stdout (rt c)).

#[global] Instance crash_inv_dec ok1 ok2 c : Decision (crash_inv ok1 ok2 c).
Proof. unfold crash_inv. apply _. Defined.

(** The configurations of such a run: [main] alone up to the failing
    statement, and [t1], when it has been started, before or after the first
    call of its [thread_state]'s constructor. *)
Definition crash_configs (ok1 ok2 : bool) : list config :=
  (λ sched, run_schedule_with ok1 ok2 sched start) <$>
    [ []; [0]; [0; 0]; [0; 0; 0]; [0; 0; 0; 0]; [0; 0; 0; 0; 0]; [0; 0; 0; 0; 0; 1] ].

Definition crash_check (ok1 ok2 : bool) (l : list config) : bool :=
  bool_decide (start ∈ l)
  && forallb (λ c,
       bool_decide (crash_inv ok1 ok2 c)
       && forallb (λ th, match cstep ok1 ok2 th c with
                         | Stepped _ c' => bool_decide (c' ∈ l)
                         | _ => true
                         end) [0; 1]) l.


(** ** Properties of the API model *)

Ltac unfold_M :=
  unfold mbind, M_bind, bind, mret, M_ret, ret in *.

Lemma current_set_current_of th x s :
  current (set_current_of th x s) !! th = x.
Proof.
  destruct x; cbn; [apply lookup_insert_eq | apply lookup_delete_eq].
Qed.

Lemma current_set_current_of_ne th th' x s :
  th ≠ th' → current (set_current_of th x s) !! th' = current s !! th'.
Proof.
  intros Hne. destruct x; cbn; [by apply lookup_insert_ne | by apply lookup_delete_ne].
Qed.

Lemma holds_gil_true th s : gil s = Some th → holds_gil th s = true.
Proof. intros H. unfold holds_gil. by apply bool_decide_eq_true. Qed.

Lemma PyThreadState_Swap_ok th x s :
  gil s = Some th →
  PyThreadState_Swap th x s =
    Ok (current s !! th) (emit (EvSwap th x (current s !! th)) (set_current_of th x s)).
Proof. intros H. unfold PyThreadState_Swap. by rewrite (holds_gil_true _ _ H). Qed.

Lemma PyThreadState_Get_ok th a s :
  current s !! th = Some a →
  PyThreadState_Get th s = Ok (Some a) (emit (EvGet th a) s).
Proof. intros H. unfold PyThreadState_Get. by rewrite H. Qed.

Lemma PyEval_SaveThread_ok th a s :
  gil s = Some th → current s !! th = Some a →
  PyEval_SaveThread th s =
    Ok (Some a) (emit (EvSaveThread th a) (set_gil None (set_current_of th None s))).
Proof.
  intros Hg Hc. unfold PyEval_SaveThread. by rewrite Hc, (holds_gil_true _ _ Hg).
Qed.

Lemma PyEval_RestoreThread_ok th a s :
  gil s = None →
  PyEval_RestoreThread th (Some a) s =
    Ok tt (emit (EvRestoreThread th a) (set_gil (Some th) (set_current_of th (Some a) s))).
Proof. intros Hg. unfold PyEval_RestoreThread. by rewrite Hg. Qed.

Lemma PyThreadState_New_ok th i ist s :
  interps s !! i = Some ist →
  PyThreadState_New th i s =
    Ok (Some (next_tstate s)) (emit (EvNew th i (next_tstate s)) (alloc_tstate i s).2).
Proof. intros H. unfold PyThreadState_New. by rewrite H. Qed.

Lemma PyThreadState_Clear_ok th a ts s :
  gil s = Some th → tstates s !! a = Some ts →
  PyThreadState_Clear th (Some a) s =
    Ok tt (emit (EvClear th a)
             (set_tstates (<[a := mkThreadState (interp ts) true]> (tstates s)) s)).
Proof.
  intros Hg Ha. unfold PyThreadState_Clear. by rewrite Ha, (holds_gil_true _ _ Hg).
Qed.

Lemma PyThreadState_DeleteCurrent_ok th a ts s :
  gil s = Some th → current s !! th = Some a → tstates s !! a = Some ts →
  PyThreadState_DeleteCurrent th s =
    Ok tt (emit (EvDeleteCurrent th a)
             (set_gil None (set_current_of th None (set_tstates (delete a (tstates s)) s)))).
Proof.
  intros Hg Hc Ha. unfold PyThreadState_DeleteCurrent.
  by rewrite Hc, Ha, (holds_gil_true _ _ Hg).
Qed.

Lemma Py_NewInterpreter_ok th s :
  initialized s = true → gil s = Some th →
  Py_NewInterpreter th true s =
    Ok (Some (next_tstate s))
       (emit (EvNewInterpreter th (Some (next_tstate s)))
          (set_current_of th (Some (next_tstate s))
             (alloc_tstate (next_interp s) (alloc_interp s).2).2)).
Proof.
  intros Hi Hg. unfold Py_NewInterpreter. by rewrite Hi, (holds_gil_true _ _ Hg).
Qed.

Lemma Py_NewInterpreter_failed th s :
  initialized s = true → gil s = Some th →
  Py_NewInterpreter th false s = Ok None (emit (EvNewInterpreter th None) s).
Proof.
  intros Hi Hg. unfold Py_NewInterpreter. by rewrite Hi, (holds_gil_true _ _ Hg).
Qed.

(** Rebinding keeps the GIL with the caller and the runtime initialized. *)
Lemma rebind_all_ok th rs : ∀ s,
  initialized s = true → gil s = Some th →
  ∃ s', rebind_all th rs s = Ok tt s' ∧ initialized s' = true ∧ gil s' = Some th.
Proof.
  induction rs as [|r rs IH]; intros s Hi Hg.
  - exists s. by cbn.
  - cbn [rebind_all]. unfold_M. destruct r as [target|[|]]; cbn [rebind]; unfold_M.
    + rewrite (PyThreadState_Swap_ok _ _ _ Hg). by apply IH.
    + rewrite (Py_NewInterpreter_ok _ _ Hi Hg). by apply IH.
    + rewrite (Py_NewInterpreter_failed _ _ Hi Hg). by apply IH.
Qed.

(** ** The guards *)

(** C5 - [swap_tstate_scope]: for every target and every previous current
    thread state of the calling thread, which holds the GIL, the constructor
    makes [target] current and records the previous one; the destructor,
    whatever state the scope's body left behind, makes the recorded one
    current again.  Neither takes nor releases the GIL, and nothing but the
    caller's current thread state changes. *)
Theorem swap_tstate_scope_spec (th : tid) (target : option addr) (s : runtime) :
  gil s = Some th →
  ∃ g s1,
    swap_tstate_scope.ctor th target s = Ok g s1
    ∧ current s1 !! th = target
    ∧ swap_tstate_scope._ts g = current s !! th
    ∧ gil s1 = gil s
    ∧ tstates s1 = tstates s ∧ interps s1 = interps s
    ∧ (∀ th', th' ≠ th → current s1 !! th' = current s !! th')
    ∧ ∀ s2, gil s2 = Some th →
        ∃ s3, swap_tstate_scope.dtor th g s2 = Ok tt s3
          ∧ current s3 !! th = current s !! th
          ∧ gil s3 = gil s2
          ∧ tstates s3 = tstates s2 ∧ interps s3 = interps s2
          ∧ (∀ th', th' ≠ th → current s3 !! th' = current s2 !! th').
Proof.
  intros Hg. unfold swap_tstate_scope.ctor, swap_tstate_scope.dtor. unfold_M.
  rewrite (PyThreadState_Swap_ok _ _ _ Hg).
  eexists _, _. split; [reflexivity|]. cbn [swap_tstate_scope._ts].
  repeat split.
  - apply current_set_current_of.
  - intros th' Hne. cbn [emit current]. by apply current_set_current_of_ne.
  - intros s2 Hg2. rewrite (PyThreadState_Swap_ok _ _ _ Hg2).
    eexists. split; [reflexivity|]. repeat split.
    + apply current_set_current_of.
    + intros th' Hne. cbn [emit current]. by apply current_set_current_of_ne.
Qed.

Lemma swap_tstate_scope_spec_witness :
  gil after_init = Some 0 ∧
  ∃ g s1,
    swap_tstate_scope.ctor 0 None after_init = Ok g s1
    ∧ current s1 !! 0 = None
    ∧ swap_tstate_scope._ts g = current after_init !! 0
    ∧ gil s1 = gil after_init
    ∧ tstates s1 = tstates after_init ∧ interps s1 = interps after_init
    ∧ (∀ th', th' ≠ 0 → current s1 !! th' = current after_init !! th')
    ∧ ∀ s2, gil s2 = Some 0 →
        ∃ s3, swap_tstate_scope.dtor 0 g s2 = Ok tt s3
          ∧ current s3 !! 0 = current after_init !! 0
          ∧ gil s3 = gil s2
          ∧ tstates s3 = tstates s2 ∧ interps s3 = interps s2
          ∧ (∀ th', th' ≠ 0 → current s3 !! th' = current s2 !! th').
Proof.
  split; [reflexivity | apply (swap_tstate_scope_spec 0 None after_init); reflexivity].
Defined.

(** C2 - [restore_tstate_scope]: whatever sequence of rebinding operations
    the calling thread performs inside the scope, after the destructor its
    current thread state is the one that was current when the scope was
    entered. *)
Theorem restore_tstate_scope_spec (th : tid) (ts : addr) (rs : list rebinding) (s : runtime) :
  initialized s = true →
  gil s = Some th →
  current s !! th = Some ts →
  ∃ s', scoped (restore_tstate_scope.ctor th) (restore_tstate_scope.dtor th)
               (fun _ => rebind_all th rs) s = Ok tt s'
        ∧ current s' !! th = Some ts.
Proof.
  intros Hi Hg Hc. unfold scoped, restore_tstate_scope.ctor, restore_tstate_scope.dtor.
  unfold_M. rewrite (PyThreadState_Get_ok _ _ _ Hc).
  destruct (rebind_all_ok th rs (emit (EvGet th ts) s)) as (s2 & -> & _ & Hg2);
    [done | done |].
  cbn [restore_tstate_scope._ts]. rewrite (PyThreadState_Swap_ok _ _ _ Hg2).
  eexists. split; [reflexivity|]. apply current_set_current_of.
Qed.

Lemma restore_tstate_scope_spec_witness :
  ∃ s', scoped (restore_tstate_scope.ctor 0) (restore_tstate_scope.dtor 0)
               (fun _ => rebind_all 0 [RebindNewInterpreter true; RebindSwap None;
                                       RebindSwap (Some 7)]) after_init = Ok tt s'
        ∧ current s' !! 0 = Some 1.
Proof.
  apply (restore_tstate_scope_spec 0 1
           [RebindNewInterpreter true; RebindSwap None; RebindSwap (Some 7)] after_init);
    reflexivity.
Defined.

(** C3, as stated, fails: in the state [main] is in after [initialize init],
    thread 0 holds the GIL with thread state 1 current; once the constructor
    of [enable_threads_scope] has released the GIL, thread 0 has no current
    thread state left, and asking for it is a fatal error. *)
Lemma enable_threads_scope_current_counterexample :
  gil after_init = Some 0 ∧ current after_init !! 0 = Some 1 ∧
  ∃ g s1,
    enable_threads_scope.ctor 0 after_init = Ok g s1
    ∧ current s1 !! 0 = None
    ∧ current s1 !! 0 ≠ current after_init !! 0
    ∧ thread_state.current 0 s1 = Fatal "PyThreadState_Get: no current thread".
Proof.
  split; [reflexivity|]. split; [reflexivity|].
  eexists _, _. split; [reflexivity|]. split; [reflexivity|].
  split; [|reflexivity]. vm_compute. discriminate.
Qed.

(** C3, amended - releasing the GIL on entry to [enable_threads_scope] does
    not modify or destroy the thread state that was current (no thread state
    and no interpreter changes, nor any other thread's current thread state),
    but it stops being current: the caller's current thread state is reset to
    NULL and the released one is kept in the guard's [_state], from where the
    destructor makes it current again when it re-acquires the GIL. *)
Theorem enable_threads_scope_release (th : tid) (ts : addr) (s : runtime) :
  gil s = Some th →
  current s !! th = Some ts →
  ∃ g s1,
    enable_threads_scope.ctor th s = Ok g s1
    ∧ enable_threads_scope._state g = Some ts
    ∧ gil s1 = None
    ∧ current s1 !! th = None
    ∧ tstates s1 = tstates s ∧ interps s1 = interps s
    ∧ (∀ th', th' ≠ th → current s1 !! th' = current s !! th')
    ∧ ∀ s2, gil s2 = None →
        ∃ s3, enable_threads_scope.dtor th g s2 = Ok tt s3
          ∧ gil s3 = Some th ∧ current s3 !! th = Some ts.
Proof.
  intros Hg Hc. unfold enable_threads_scope.ctor, enable_threads_scope.dtor. unfold_M.
  rewrite (PyEval_SaveThread_ok _ _ _ Hg Hc).
  eexists _, _. split; [reflexivity|]. cbn [enable_threads_scope._state].
  repeat split.
  - apply (current_set_current_of th None).
  - intros th' Hne. cbn [emit current set_gil]. by apply current_set_current_of_ne.
  - intros s2 Hg2. rewrite (PyEval_RestoreThread_ok _ _ _ Hg2).
    eexists. split; [reflexivity|]. split; [reflexivity|].
    apply (current_set_current_of th (Some ts)).
Qed.

Lemma enable_threads_scope_release_witness :
  ∃ g s1,
    enable_threads_scope.ctor 0 after_init = Ok g s1
    ∧ enable_threads_scope._state g = Some 1
    ∧ gil s1 = None
    ∧ current s1 !! 0 = None
    ∧ tstates s1 = tstates after_init ∧ interps s1 = interps after_init
    ∧ (∀ th', th' ≠ 0 → current s1 !! th' = current after_init !! th')
    ∧ ∀ s2, gil s2 = None →
        ∃ s3, enable_threads_scope.dtor 0 g s2 = Ok tt s3
          ∧ gil s3 = Some 0 ∧ current s3 !! 0 = Some 1.
Proof.
  apply (enable_threads_scope_release 0 1 after_init); reflexivity.
Defined.

(** C4 - [enable_threads_scope] on one thread: the constructor captures the
    holder's thread state and frees the GIL; the destructor, run in whatever
    state the other threads left with the GIL free, gives the GIL back to the
    same thread with the captured thread state current, and touches no thread
    state or interpreter; it waits while another thread holds the GIL.  The
    pairs nest: until the thread has restored, a second release by it is a
    fatal error. *)
Theorem enable_threads_scope_roundtrip (th : tid) (ts : addr) (s : runtime) :
  gil s = Some th →
  current s !! th = Some ts →
  ∃ g s1,
    enable_threads_scope.ctor th s = Ok g s1
    ∧ enable_threads_scope._state g = current s !! th
    ∧ gil s1 = None
    ∧ tstates s1 = tstates s
    ∧ enable_threads_scope.ctor th s1 = Fatal "PyEval_SaveThread: NULL tstate"
    ∧ (∀ s2 h, gil s2 = Some h → enable_threads_scope.dtor th g s2 = Blocked)
    ∧ ∀ s2, gil s2 = None →
        ∃ s3, enable_threads_scope.dtor th g s2 = Ok tt s3
          ∧ gil s3 = gil s
          ∧ current s3 !! th = current s !! th
          ∧ tstates s3 = tstates s2 ∧ interps s3 = interps s2
          ∧ (∀ th', th' ≠ th → current s3 !! th' = current s2 !! th').
Proof.
  intros Hg Hc. unfold enable_threads_scope.ctor, enable_threads_scope.dtor. unfold_M.
  rewrite (PyEval_SaveThread_ok _ _ _ Hg Hc).
  eexists _, _. split; [reflexivity|]. cbn [enable_threads_scope._state].
  split; [done|]. split; [done|]. split; [done|]. split; [|split].
  - unfold PyEval_SaveThread. cbn [emit current set_gil].
    by rewrite (current_set_current_of th None).
  - intros s2 h Hg2. unfold PyEval_RestoreThread. by rewrite Hg2.
  - intros s2 Hg2. rewrite (PyEval_RestoreThread_ok _ _ _ Hg2).
    eexists. split; [reflexivity|]. rewrite Hg, Hc. repeat split.
    + apply (current_set_current_of th (Some ts)).
    + intros th' Hne. cbn [emit current set_gil]. by apply current_set_current_of_ne.
Qed.

Lemma enable_threads_scope_roundtrip_witness :
  ∃ g s1,
    enable_threads_scope.ctor 0 after_init = Ok g s1
    ∧ enable_threads_scope._state g = current after_init !! 0
    ∧ gil s1 = None
    ∧ tstates s1 = tstates after_init
    ∧ enable_threads_scope.ctor 0 s1 = Fatal "PyEval_SaveThread: NULL tstate"
    ∧ (∀ s2 h, gil s2 = Some h → enable_threads_scope.dtor 0 g s2 = Blocked)
    ∧ ∀ s2, gil s2 = None →
        ∃ s3, enable_threads_scope.dtor 0 g s2 = Ok tt s3
          ∧ gil s3 = gil after_init
          ∧ current s3 !! 0 = current after_init !! 0
          ∧ tstates s3 = tstates s2 ∧ interps s3 = interps s2
          ∧ (∀ th', th' ≠ 0 → current s3 !! th' = current s2 !! th').
Proof.
  apply (enable_threads_scope_roundtrip 0 1 after_init); reflexivity.
Defined.

(** C6 - [sub_interpreter]'s constructor: when the calling thread holds the
    GIL of an initialized runtime with a current thread state, the
    constructor returns with the GIL still held and with every thread's
    current thread state as before the call.  When creation succeeds the
    object holds the first thread state of a new interpreter whose [sys]
    namespace is pristine, neither of which existed before; [interp()]
    returns that interpreter, and no other interpreter or thread state is
    changed.  When creation fails the object holds NULL and nothing is
    allocated. *)
Theorem sub_interpreter_ctor_spec (th : tid) (ts : addr) (ok : bool) (s : runtime) :
  wf_alloc s →
  initialized s = true →
  gil s = Some th →
  current s !! th = Some ts →
  ∃ self s',
    sub_interpreter.ctor th ok s = Ok self s'
    ∧ current s' !! th = Some ts
    ∧ current s' = current s
    ∧ gil s' = Some th
    ∧ (ok = true →
         ∃ a i,
           sub_interpreter._ts self = Some a
           ∧ tstates s !! a = None ∧ interps s !! i = None
           ∧ tstates s' = <[a := mkThreadState i false]> (tstates s)
           ∧ interps s' = <[i := mkInterpreterState ∅]> (interps s)
           ∧ sub_interpreter.interp self s' = Ok i s')
    ∧ (ok = false →
         sub_interpreter._ts self = None
         ∧ tstates s' = tstates s ∧ interps s' = interps s).
Proof.
  intros [Hwt Hwi] Hi Hg Hc.
  unfold sub_interpreter.ctor, scoped, restore_tstate_scope.ctor,
    restore_tstate_scope.dtor.
  unfold_M. rewrite (PyThreadState_Get_ok _ _ _ Hc). cbn [restore_tstate_scope._ts].
  destruct ok.
  - rewrite Py_NewInterpreter_ok by done.
    rewrite PyThreadState_Swap_ok by done.
    eexists _, _. split; [reflexivity|]. cbn.
    rewrite insert_insert_eq, (insert_id _ _ _ Hc).
    split; [done|]. split; [done|]. split; [done|]. split; [|done].
    intros _. exists (next_tstate s), (next_interp s).
    split; [done|].
    assert (tstates s !! next_tstate s = None) as Hft.
    { destruct (tstates s !! next_tstate s) eqn:E; [|done].
      specialize (Hwt (next_tstate s) _ E). cbn in Hwt. lia. }
    assert (interps s !! next_interp s = None) as Hfi.
    { destruct (interps s !! next_interp s) eqn:E; [|done].
      specialize (Hwi (next_interp s) _ E). cbn in Hwi. lia. }
    split; [done|]. split; [done|]. split; [done|]. split; [done|].
    unfold sub_interpreter.interp, tstate_interp. cbn.
    by rewrite lookup_insert_eq.
  - rewrite Py_NewInterpreter_failed by done.
    rewrite PyThreadState_Swap_ok by done.
    eexists _, _. split; [reflexivity|]. cbn.
    rewrite (insert_id _ _ _ Hc). done.
Qed.

Lemma sub_interpreter_ctor_spec_witness :
  ∃ self s',
    sub_interpreter.ctor 0 true after_init = Ok self s'
    ∧ current s' !! 0 = Some 1
    ∧ current s' = current after_init
    ∧ gil s' = Some 0
    ∧ (true = true →
         ∃ a i,
           sub_interpreter._ts self = Some a
           ∧ tstates after_init !! a = None ∧ interps after_init !! i = None
           ∧ tstates s' = <[a := mkThreadState i false]> (tstates after_init)
           ∧ interps s' = <[i := mkInterpreterState ∅]> (interps after_init)
           ∧ sub_interpreter.interp self s' = Ok i s')
    ∧ (true = false →
         sub_interpreter._ts self = None
         ∧ tstates s' = tstates after_init ∧ interps s' = interps after_init).
Proof.
  apply (sub_interpreter_ctor_spec 0 1 true after_init);
    [split; apply (bool_decide_unpack _); vm_compute; exact I
    | reflexivity | reflexivity | reflexivity].
Defined.

(** C9 - a [sub_interpreter] whose creation failed holds a NULL thread state,
    and its destructor is a no-op: on any thread and in any state it returns
    with the state as it was, having made no API call (no swap, no
    [Py_EndInterpreter]). *)
Theorem sub_interpreter_dtor_null (th : tid) (self : sub_interpreter.t) (s s1 : runtime) :
  sub_interpreter.ctor th false s = Ok self s1 →
  sub_interpreter._ts self = None
  ∧ ∀ th' s2, sub_interpreter.dtor th' self s2 = Ok tt s2.
Proof.
  unfold sub_interpreter.ctor, scoped, restore_tstate_scope.ctor,
    restore_tstate_scope.dtor, Py_NewInterpreter, PyThreadState_Get, PyThreadState_Swap.
  unfold_M. intros H.
  assert (self = sub_interpreter.mk None) as ->.
  { repeat case_match; simplify_eq; done. }
  split; [done|]. intros th' s2. reflexivity.
Qed.

Lemma sub_interpreter_dtor_null_witness :
  sub_interpreter._ts (sub_interpreter.mk None) = None
  ∧ ∀ th' s2, sub_interpreter.dtor th' (sub_interpreter.mk None) s2 = Ok tt s2.
Proof.
  eapply (sub_interpreter_dtor_null 0 (sub_interpreter.mk None) after_init).
  reflexivity.
Defined.

(** C1 - [sub_interpreter::thread_scope]: for every live interpreter, entered
    when the GIL is free, the constructor first attaches (a thread state that
    did not exist before is created for the interpreter, the GIL is taken and
    the new thread state made current) and then swaps with the new thread
    state as target.  Whatever the body does and however it completes -
    normally or by a thrown exception - as long as the thread still holds the
    GIL and the thread state is alive, the destructor first undoes the swap
    and then detaches: the thread state is cleared and deleted, the thread has
    no current thread state and the GIL is free. *)
Theorem thread_scope_spec {A} (th : tid) (i : interp_id) (ist : PyInterpreterState)
    (body : M (completion A)) (s : runtime) :
  wf_alloc s →
  interps s !! i = Some ist →
  gil s = None →
  ∃ a g s1,
    sub_interpreter.thread_scope.ctor th i s = Ok g s1
    ∧ tstates s !! a = None
    ∧ trace s1 = (trace s ++ [EvNew th i a; EvRestoreThread th a;
                              EvSwap th (Some a) (Some a)])%list
    ∧ tstates s1 = <[a := mkThreadState i false]> (tstates s)
    ∧ current s1 !! th = Some a
    ∧ gil s1 = Some th
    ∧ ∀ r s2,
        body s1 = Ok r s2 →
        gil s2 = Some th →
        is_Some (tstates s2 !! a) →
        ∃ s3,
          in_thread_scope th i body s = Ok r s3
          ∧ trace s3 = (trace s2 ++ [EvSwap th (Some a) (current s2 !! th);
                                     EvClear th a; EvDeleteCurrent th a])%list
          ∧ tstates s3 = delete a (tstates s2)
          ∧ current s3 !! th = None
          ∧ gil s3 = None.
Proof.
  intros [Hwt _] Hi Hg. exists (next_tstate s).
  unfold in_thread_scope, scoped, sub_interpreter.thread_scope.ctor,
    sub_interpreter.thread_scope.dtor, thread_state.ctor, thread_state.dtor,
    swap_tstate_scope.ctor, swap_tstate_scope.dtor, thread_state.to_ptr.
  unfold_M. rewrite (PyThreadState_New_ok _ _ _ _ Hi).
  rewrite PyEval_RestoreThread_ok by done.
  rewrite PyThreadState_Swap_ok by done.
  eexists _, _. split; [reflexivity|].
  split.
  { destruct (tstates s !! next_tstate s) eqn:E; [|done].
    specialize (Hwt _ _ E). cbn in Hwt. lia. }
  split.
  { cbn. rewrite lookup_insert_eq. by rewrite <- !app_assoc. }
  split; [done|]. split; [cbn; by rewrite lookup_insert_eq|]. split; [done|].
  intros r s2 -> Hg2 [ts2 Hts2].
  cbn [sub_interpreter.thread_scope._swap sub_interpreter.thread_scope._state
       swap_tstate_scope._ts thread_state._ts].
  cbn [emit set_gil set_current_of set_current current alloc_tstate snd].
  rewrite lookup_insert_eq.
  rewrite PyThreadState_Swap_ok by done.
  erewrite PyThreadState_Clear_ok; [|done|exact Hts2].
  erewrite PyThreadState_DeleteCurrent_ok; [|done| |].
  2: { cbn. apply lookup_insert_eq. }
  2: { cbn. apply lookup_insert_eq. }
  eexists. split; [reflexivity|]. cbn.
  split; [by rewrite <- !app_assoc|]. split; [by rewrite delete_insert_eq|].
  split; [apply lookup_delete_eq | done].
Qed.

Lemma thread_scope_spec_witness :
  ∃ a g s1,
    sub_interpreter.thread_scope.ctor 4 1 after_release = Ok g s1
    ∧ tstates after_release !! a = None
    ∧ trace s1 = (trace after_release ++ [EvNew 4 1 a; EvRestoreThread 4 a;
                                          EvSwap 4 (Some a) (Some a)])%list
    ∧ tstates s1 = <[a := mkThreadState 1 false]> (tstates after_release)
    ∧ current s1 !! 4 = Some a
    ∧ gil s1 = Some 4
    ∧ ∀ r s2,
        (status ← PyRun_SimpleString 4 (f_code "t4(main)");
         mret (Normal status)) s1 = Ok r s2 →
        gil s2 = Some 4 →
        is_Some (tstates s2 !! a) →
        ∃ s3,
          in_thread_scope 4 1
            (status ← PyRun_SimpleString 4 (f_code "t4(main)");
             mret (Normal status)) after_release = Ok r s3
          ∧ trace s3 = (trace s2 ++ [EvSwap 4 (Some a) (current s2 !! 4);
                                     EvClear 4 a; EvDeleteCurrent 4 a])%list
          ∧ tstates s3 = delete a (tstates s2)
          ∧ current s3 !! 4 = None
          ∧ gil s3 = None.
Proof.
  apply (thread_scope_spec 4 1 (mkInterpreterState ∅)
           (status ← PyRun_SimpleString 4 (f_code "t4(main)"); mret (Normal status))
           after_release);
    [split; apply (bool_decide_unpack _); vm_compute; exact I
    | reflexivity | reflexivity].
Defined.

(** C10 - inside [sub_interpreter::thread_scope] the thread state recorded by
    the inner swap is the freshly created one itself.  Hence, in whatever
    state the body leaves the scope (the thread holding the GIL, the thread
    state alive), undoing the swap makes the guard's own thread state the
    current one, it still is after [PyThreadState_Clear], and the thread state
    that [PyThreadState_DeleteCurrent] then destroys is exactly the one that
    was created and cleared. *)
Theorem thread_scope_detaches_current (th : tid) (i : interp_id)
    (ist : PyInterpreterState) (s : runtime) :
  interps s !! i = Some ist →
  gil s = None →
  ∃ a g s1,
    sub_interpreter.thread_scope.ctor th i s = Ok g s1
    ∧ thread_state._ts (sub_interpreter.thread_scope._state g) = Some a
    ∧ swap_tstate_scope._ts (sub_interpreter.thread_scope._swap g) = Some a
    ∧ current s1 !! th = Some a
    ∧ ∀ s2,
        gil s2 = Some th →
        is_Some (tstates s2 !! a) →
        ∃ s3 s4 s5,
          swap_tstate_scope.dtor th (sub_interpreter.thread_scope._swap g) s2 = Ok tt s3
          ∧ current s3 !! th = Some a
          ∧ PyThreadState_Clear th (Some a) s3 = Ok tt s4
          ∧ current s4 !! th = Some a
          ∧ cleared <$> tstates s4 !! a = Some true
          ∧ PyThreadState_DeleteCurrent th s4 = Ok tt s5
          ∧ trace s5 = (trace s4 ++ [EvDeleteCurrent th a])%list
          ∧ tstates s5 = delete a (tstates s2)
          ∧ sub_interpreter.thread_scope.dtor th g s2 = Ok tt s5.
Proof.
  intros Hi Hg. exists (next_tstate s).
  unfold sub_interpreter.thread_scope.ctor, sub_interpreter.thread_scope.dtor,
    thread_state.ctor, thread_state.dtor, swap_tstate_scope.ctor,
    swap_tstate_scope.dtor, thread_state.to_ptr.
  unfold_M. rewrite (PyThreadState_New_ok _ _ _ _ Hi).
  rewrite PyEval_RestoreThread_ok by done.
  rewrite PyThreadState_Swap_ok by done.
  eexists _, _. split; [reflexivity|].
  cbn [sub_interpreter.thread_scope._swap sub_interpreter.thread_scope._state
       swap_tstate_scope._ts thread_state._ts].
  cbn [emit set_gil set_current_of set_current current alloc_tstate snd].
  split; [done|]. split; [apply lookup_insert_eq|]. split; [apply lookup_insert_eq|].
  intros s2 Hg2 [ts2 Hts2]. rewrite lookup_insert_eq.
  set (a := next_tstate s).
  set (s3 := emit (EvSwap th (Some a) (current s2 !! th)) (set_current_of th (Some a) s2)).
  set (s4 := emit (EvClear th a)
               (set_tstates (<[a := mkThreadState (interp ts2) true]> (tstates s3)) s3)).
  set (s5 := emit (EvDeleteCurrent th a)
               (set_gil None (set_current_of th None
                                (set_tstates (delete a (tstates s4)) s4)))).
  assert (PyThreadState_Swap th (Some a) s2 = Ok (current s2 !! th) s3) as H3
    by by apply PyThreadState_Swap_ok.
  assert (PyThreadState_Clear th (Some a) s3 = Ok tt s4) as H4
    by by apply PyThreadState_Clear_ok.
  assert (current s4 !! th = Some a) as Hc4 by apply lookup_insert_eq.
  assert (tstates s4 !! a = Some (mkThreadState (interp ts2) true)) as Ht4
    by apply lookup_insert_eq.
  assert (PyThreadState_DeleteCurrent th s4 = Ok tt s5) as H5
    by by eapply PyThreadState_DeleteCurrent_ok.
  exists s3, s4, s5. rewrite H3, H4, H5, Hc4, Ht4.
  split; [done|]. split; [apply lookup_insert_eq|].
  split; [done|]. split; [done|]. split; [done|]. split; [done|]. split; [done|].
  split; [|done]. cbn. by rewrite delete_insert_eq.
Qed.

Lemma thread_scope_detaches_current_witness :
  ∃ a g s1,
    sub_interpreter.thread_scope.ctor 4 1 after_release = Ok g s1
    ∧ thread_state._ts (sub_interpreter.thread_scope._state g) = Some a
    ∧ swap_tstate_scope._ts (sub_interpreter.thread_scope._swap g) = Some a
    ∧ current s1 !! 4 = Some a
    ∧ ∀ s2,
        gil s2 = Some 4 →
        is_Some (tstates s2 !! a) →
        ∃ s3 s4 s5,
          swap_tstate_scope.dtor 4 (sub_interpreter.thread_scope._swap g) s2 = Ok tt s3
          ∧ current s3 !! 4 = Some a
          ∧ PyThreadState_Clear 4 (Some a) s3 = Ok tt s4
          ∧ current s4 !! 4 = Some a
          ∧ cleared <$> tstates s4 !! a = Some true
          ∧ PyThreadState_DeleteCurrent 4 s4 = Ok tt s5
          ∧ trace s5 = (trace s4 ++ [EvDeleteCurrent 4 a])%list
          ∧ tstates s5 = delete a (tstates s2)
          ∧ sub_interpreter.thread_scope.dtor 4 g s2 = Ok tt s5.
Proof.
  apply (thread_scope_detaches_current 4 1 (mkInterpreterState ∅) after_release);
    reflexivity.
Defined.

(** ** The threads of [main] under every scheduling *)

(** The steps of a worker, run back to back, are [f]. *)
Lemma f_worker_run (th : tid) (i : interp_id) (tname : string) (s : runtime) :
  f th i tname s = (worker_run 7 th (new_worker i tname);; mret tt) s.
Proof.
  cbv [f in_thread_scope scoped sub_interpreter.thread_scope.ctor
       sub_interpreter.thread_scope.dtor thread_state.ctor thread_state.dtor
       swap_tstate_scope.ctor swap_tstate_scope.dtor thread_state.to_ptr
       worker_run worker_step new_worker at_pc w_pc w_interp w_tname w_state w_swap
       thread_state._ts swap_tstate_scope._ts sub_interpreter.thread_scope._swap
       sub_interpreter.thread_scope._state mbind M_bind bind mret M_ret ret].
  destruct (PyThreadState_New th i s) as [ts s1| |]; [|reflexivity..].
  destruct (PyEval_RestoreThread th ts s1) as [[] s2| |]; [|reflexivity..].
  destruct (PyThreadState_Swap th ts s2) as [old s3| |]; [|reflexivity..].
  destruct (PyRun_SimpleString th (f_code tname) s3) as [status s4| |]; [|reflexivity..].
  destruct (PyThreadState_Swap th old s4) as [old' s5| |]; [|reflexivity..].
  destruct (PyThreadState_Clear th ts s5) as [[] s6| |]; [|reflexivity..].
  destruct (PyThreadState_DeleteCurrent th s6) as [[] s7| |]; reflexivity.
Qed.

Lemma reachable_run_schedule (sched : list tid) :
  ∀ c, reachable c → reachable (run_schedule sched c).
Proof.
  induction sched as [|th sched IH]; intros c Hc; [done|].
  cbn [run_schedule]. destruct (cstep true true th c) eqn:Hstep; auto.
  apply IH. by eapply reachable_step.
Qed.

Lemma seen_spec (c : config) (v : gmap N (list config)) :
  seen c v = true → ∃ l, v !! hash c = Some l ∧ c ∈ l.
Proof.
  unfold seen. destruct (v !! hash c) as [l|]; [|done].
  intros (c' & Hin & Heq)%existsb_exists. exists l. split; [done|].
  apply bool_decide_eq_true in Heq as ->. by apply list_elem_of_In.
Qed.

Lemma closed_spec (v : gmap N (list config)) (h : N) (l : list config) (c : config) :
  closed v = true → v !! h = Some l → c ∈ l →
  config_inv c ∧ ∀ th, th ∈ all_threads → step_inv v c th = true.
Proof.
  unfold closed. rewrite forallb_forall. intros Hall Hl Hc.
  specialize (Hall (h, l)). cbn beta iota in Hall.
  rewrite forallb_forall in Hall.
  assert (In (h, l) (map_to_list v)) as Hin
    by by apply list_elem_of_In, elem_of_map_to_list.
  specialize (Hall Hin c (proj1 (list_elem_of_In _ _) Hc)).
  apply andb_true_iff in Hall as [Hinv Hsteps].
  split; [by apply bool_decide_eq_true in Hinv|].
  intros th Hth. rewrite forallb_forall in Hsteps.
  by apply Hsteps, list_elem_of_In.
Qed.

Lemma no_thread_outside (c : config) (th : tid) :
  config_inv c → th ∉ all_threads → th ≠ 0 ∧ threads c !! th = None.
Proof.
  intros (Hthreads & _) Hth. unfold all_threads in Hth.
  rewrite !elem_of_cons in Hth. split; [lia|].
  destruct (threads c !! th) as [w|] eqn:E; [|done].
  specialize (Hthreads th w E). cbn in Hthreads. lia.
Qed.

Lemma cstep_outside (c : config) (th : tid) :
  config_inv c → th ∉ all_threads → cstep true true th c = Finished.
Proof.
  intros Hinv Hth. destruct (no_thread_outside c th Hinv Hth) as [Hne Hnone].
  unfold cstep. destruct th; [done|]. by rewrite Hnone.
Qed.

Section Exploration.
(** Any set of configurations that contains [start] and is closed. *)
Variable v : gmap N (list config).
Hypothesis Hv : checked v = true.

(** Every reachable configuration is in the set. *)
Lemma reachable_seen (c : config) : reachable c → seen c v = true.
Proof using Hv.
  apply andb_true_iff in Hv as [Hstart Hclosed].
  induction 1 as [|c th label c' _ IH Hstep]; [exact Hstart|].
  apply seen_spec in IH as (l & Hl & Hc).
  destruct (closed_spec _ _ _ _ Hclosed Hl Hc) as [Hinv Hsteps].
  destruct (decide (th ∈ all_threads)) as [Hth|Hth].
  - specialize (Hsteps th Hth). unfold step_inv in Hsteps. rewrite Hstep in Hsteps.
    apply andb_true_iff in Hsteps as [Hseen _]. exact Hseen.
  - rewrite (cstep_outside c th Hinv Hth) in Hstep. discriminate.
Qed.

(** Hence it satisfies what was checked of it and of its steps. *)
Lemma reachable_checked (c : config) :
  reachable c → config_inv c ∧ ∀ th, step_inv v c th = true.
Proof using Hv.
  intros Hr. apply reachable_seen, seen_spec in Hr as (l & Hl & Hc).
  apply andb_true_iff in Hv as [_ Hclosed].
  destruct (closed_spec _ _ _ _ Hclosed Hl Hc) as [Hinv Hsteps].
  split; [exact Hinv|]. intros th.
  destruct (decide (th ∈ all_threads)) as [Hth|Hth]; [exact (Hsteps th Hth)|].
  unfold step_inv. rewrite (cstep_outside c th Hinv Hth).
  destruct (no_thread_outside c th Hinv Hth) as [Hne Hnone].
  unfold acquire_site. destruct th; [done|]. rewrite Hnone. reflexivity.
Qed.



End Exploration.

(** The exploration found a set that contains [start] and is closed. *)
Lemma reach_checked : checked reach = true.
Proof. vm_cast_no_check (eq_refl true). Qed.

Lemma reachable_inv (c : config) : reachable c → config_inv c.
Proof. intros Hr. exact (proj1 (reachable_checked reach reach_checked c Hr)). Qed.





(** ** Further properties of the guards *)

Lemma wf_alloc_fresh_tstate (s : runtime) :
  wf_alloc s → tstates s !! next_tstate s = None.
Proof.
  intros [Hwt _]. destruct (tstates s !! next_tstate s) eqn:E; [|done].
  specialize (Hwt _ _ E). cbn in Hwt. lia.
Qed.

Lemma wf_alloc_fresh_interp (s : runtime) :
  wf_alloc s → interps s !! next_interp s = None.
Proof.
  intros [_ Hwi]. destruct (interps s !! next_interp s) eqn:E; [|done].
  specialize (Hwi _ _ E). cbn in Hwi. lia.
Qed.

Lemma Py_EndInterpreter_ok th a ts s :
  gil s = Some th → current s !! th = Some a → tstates s !! a = Some ts →
  last_thread a (interp ts) s = true →
  Py_EndInterpreter th (Some a) s =
    Ok tt (emit (EvEndInterpreter th a)
             (set_current_of th None
                (set_interps (delete (interp ts) (interps s))
                   (set_tstates (delete a (tstates s)) s)))).
Proof.
  intros Hg Hc Ha Hl. unfold Py_EndInterpreter.
  rewrite (holds_gil_true _ _ Hg), (bool_decide_eq_true_2 _ Hc), Ha, Hl. done.
Qed.



(** [initialize] does not count its instances: constructed on a runtime that
    is already initialized it changes nothing in the runtime, and yet its
    destructor finalizes the runtime, so that whoever initialized it first is
    left without thread states and interpreters, and creating a
    sub-interpreter afterwards is a fatal error. *)
Theorem initialize_nested_finalizes (th : tid) (a : addr) (ok : bool) (s : runtime) :
  initialized s = true →
  gil s = Some th →
  current s !! th = Some a →
  ∃ s1 s2,
    initialize.ctor th s = Ok initialize.mk s1
    ∧ initialized s1 = true ∧ gil s1 = gil s ∧ current s1 = current s
    ∧ tstates s1 = tstates s ∧ interps s1 = interps s
    ∧ scoped (initialize.ctor th) (initialize.dtor th) (fun _ => mret tt) s = Ok tt s2
    ∧ initialized s2 = false
    ∧ tstates s2 = ∅ ∧ interps s2 = ∅
    ∧ sub_interpreter.ctor th ok s2 = Fatal "PyThreadState_Get: no current thread".
Proof.
  intros Hi Hg Hc.
  unfold scoped, initialize.ctor, initialize.dtor, Py_InitializeEx, PyEval_InitThreads,
    Py_Finalize.
  unfold_M. rewrite Hi. cbn.
  rewrite Hi, (holds_gil_true th _ (Hg : gil (emit _ (emit _ s)) = Some th)), Hc. cbn.
  eexists _, _. split; [reflexivity|].
  split; [done|]. split; [done|]. split; [done|]. split; [done|]. split; [done|].
  split; [reflexivity|]. split; [done|]. split; [done|]. split; [done|].
  unfold sub_interpreter.ctor, scoped, restore_tstate_scope.ctor, PyThreadState_Get.
  unfold_M. cbn. by rewrite lookup_empty.
Qed.

Lemma initialize_nested_finalizes_witness :
  ∃ s1 s2,
    initialize.ctor 0 after_init = Ok initialize.mk s1
    ∧ initialized s1 = true ∧ gil s1 = gil after_init ∧ current s1 = current after_init
    ∧ tstates s1 = tstates after_init ∧ interps s1 = interps after_init
    ∧ scoped (initialize.ctor 0) (initialize.dtor 0) (fun _ => mret tt) after_init
      = Ok tt s2
    ∧ initialized s2 = false
    ∧ tstates s2 = ∅ ∧ interps s2 = ∅
    ∧ sub_interpreter.ctor 0 true s2 = Fatal "PyThreadState_Get: no current thread".
Proof.
  apply (initialize_nested_finalizes 0 1 true after_init); reflexivity.
Defined.

(** What the destructor of a [sub_interpreter] that holds thread state [a]
    does when [a] is alive and the only thread state of its interpreter. *)
Lemma sub_interpreter_dtor_run th a tsr s :
  gil s = Some th → tstates s !! a = Some tsr →
  last_thread a (interp tsr) s = true →
  sub_interpreter.dtor th (sub_interpreter.mk (Some a)) s =
    Ok tt (emit (EvSwap th (current s !! th) None)
             (set_current_of th (current s !! th)
                (emit (EvEndInterpreter th a)
                   (set_current_of th None
                      (set_interps (delete (interp tsr) (interps s))
                         (set_tstates (delete a (tstates s))
                            (emit (EvSwap th (Some a) (current s !! th))
                               (set_current_of th (Some a) s)))))))).
Proof.
  intros Hg Ha Hl.
  unfold sub_interpreter.dtor, scoped, swap_tstate_scope.ctor, swap_tstate_scope.dtor.
  cbn [sub_interpreter._ts]. unfold_M.
  rewrite (PyThreadState_Swap_ok _ _ _ Hg).
  erewrite Py_EndInterpreter_ok; [|done|apply (current_set_current_of th (Some a))|exact Ha|exact Hl].
  cbn [swap_tstate_scope._ts].
  rewrite PyThreadState_Swap_ok by done.
  cbn [emit set_current_of set_current set_interps set_tstates current].
  by rewrite lookup_delete_eq.
Qed.

(** [~sub_interpreter], for an object whose thread state [a] is alive and the
    last one of its interpreter, called by the holder of the GIL: destroys
    exactly that thread state and that interpreter, leaves every thread's
    current thread state and the GIL as they were, by the calls swap to [a],
    [Py_EndInterpreter], swap back. *)
Theorem sub_interpreter_dtor_spec (th : tid) (a : addr) (tsr : PyThreadState) (s : runtime) :
  gil s = Some th →
  tstates s !! a = Some tsr →
  last_thread a (interp tsr) s = true →
  ∃ s',
    sub_interpreter.dtor th (sub_interpreter.mk (Some a)) s = Ok tt s'
    ∧ tstates s' = delete a (tstates s)
    ∧ interps s' = delete (interp tsr) (interps s)
    ∧ current s' = current s
    ∧ gil s' = Some th
    ∧ stdout s' = stdout s
    ∧ trace s' = (trace s ++ [EvSwap th (Some a) (current s !! th);
                              EvEndInterpreter th a;
                              EvSwap th (current s !! th) None])%list.
Proof.
  intros Hg Ha Hl. rewrite (sub_interpreter_dtor_run _ _ _ _ Hg Ha Hl).
  eexists. split; [reflexivity|]. cbn.
  split; [done|]. split; [done|]. split.
  { destruct (current s !! th) as [b|] eqn:Hc.
    - rewrite insert_delete_eq, insert_insert_eq. by apply insert_id.
    - rewrite delete_delete_eq, delete_insert_eq. by apply delete_id. }
  split; [done|]. split; [done|]. by rewrite <- !app_assoc.
Qed.

Lemma sub_interpreter_dtor_spec_witness :
  ∃ s',
    sub_interpreter.dtor 0 (sub_interpreter.mk (Some 2)) after_s1 = Ok tt s'
    ∧ tstates s' = delete 2 (tstates after_s1)
    ∧ interps s' = delete (interp (mkThreadState 2 false)) (interps after_s1)
    ∧ current s' = current after_s1
    ∧ gil s' = Some 0
    ∧ stdout s' = stdout after_s1
    ∧ trace s' = (trace after_s1 ++ [EvSwap 0 (Some 2) (current after_s1 !! 0);
                                     EvEndInterpreter 0 2;
                                     EvSwap 0 (current after_s1 !! 0) None])%list.
Proof.
  apply (sub_interpreter_dtor_spec 0 2 (mkThreadState 2 false) after_s1);
    [reflexivity | reflexivity | vm_compute; reflexivity].
Defined.

(** Creating a [sub_interpreter] and destroying it again leaves the thread
    states, the interpreters, every thread's current thread state, the GIL
    and the output of the runtime exactly as they were. *)
Theorem sub_interpreter_roundtrip (th : tid) (ts : addr) (s : runtime) :
  wf_alloc s →
  wf_refs s →
  initialized s = true →
  gil s = Some th →
  current s !! th = Some ts →
  ∃ self s1 s2,
    sub_interpreter.ctor th true s = Ok self s1
    ∧ sub_interpreter.dtor th self s1 = Ok tt s2
    ∧ tstates s2 = tstates s
    ∧ interps s2 = interps s
    ∧ current s2 = current s
    ∧ gil s2 = gil s
    ∧ stdout s2 = stdout s.
Proof.
  intros Hwf Hrefs Hi Hg Hc.
  pose proof (wf_alloc_fresh_tstate s Hwf) as Hft.
  pose proof (wf_alloc_fresh_interp s Hwf) as Hfi.
  unfold sub_interpreter.ctor, scoped, restore_tstate_scope.ctor,
    restore_tstate_scope.dtor.
  unfold_M. rewrite (PyThreadState_Get_ok _ _ _ Hc). cbn [restore_tstate_scope._ts].
  rewrite Py_NewInterpreter_ok by done.
  rewrite PyThreadState_Swap_ok by done.
  eexists _, _, _. split; [reflexivity|].
  erewrite (sub_interpreter_dtor_run th (next_tstate s) (mkThreadState (next_interp s) false));
    [|done|cbn; apply lookup_insert_eq|].
  2: { unfold last_thread. apply bool_decide_eq_true. cbn.
       intros a' ts' Ha' Hint.
       destruct (decide (a' = next_tstate s)) as [|Hne]; [done|].
       rewrite lookup_insert_ne in Ha' by done.
       specialize (Hrefs a' ts' Ha'). cbn in Hrefs. lia. }
  split; [reflexivity|]. cbn.
  rewrite !lookup_insert_eq.
  split; [by apply delete_insert_id|]. split; [by apply delete_insert_id|].
  split.
  { rewrite !insert_insert_eq, insert_delete_eq, insert_insert_eq. by apply insert_id. }
  split; [by rewrite Hg|done].
Qed.

Lemma sub_interpreter_roundtrip_witness :
  ∃ self s1 s2,
    sub_interpreter.ctor 0 true after_init = Ok self s1
    ∧ sub_interpreter.dtor 0 self s1 = Ok tt s2
    ∧ tstates s2 = tstates after_init
    ∧ interps s2 = interps after_init
    ∧ current s2 = current after_init
    ∧ gil s2 = gil after_init
    ∧ stdout s2 = stdout after_init.
Proof.
  apply (sub_interpreter_roundtrip 0 1 after_init);
    [split; apply (bool_decide_unpack _); vm_compute; exact I
    | apply (bool_decide_unpack _); vm_compute; exact I
    | reflexivity | reflexivity | reflexivity].
Defined.

(** [~sub_interpreter] while another thread state of the same interpreter is
    still alive - a thread that has created its [thread_state] for the
    interpreter and not yet destroyed it - is a fatal error. *)
Theorem sub_interpreter_dtor_not_last (th : tid) (a b : addr) (tsa tsb : PyThreadState)
    (s : runtime) :
  gil s = Some th →
  tstates s !! a = Some tsa →
  tstates s !! b = Some tsb →
  b ≠ a →
  interp tsb = interp tsa →
  sub_interpreter.dtor th (sub_interpreter.mk (Some a)) s
  = Fatal "Py_EndInterpreter: not the last thread".
Proof.
  intros Hg Ha Hb Hne Hint.
  unfold sub_interpreter.dtor, scoped, swap_tstate_scope.ctor.
  cbn [sub_interpreter._ts]. unfold_M.
  rewrite (PyThreadState_Swap_ok _ _ _ Hg). unfold Py_EndInterpreter.
  rewrite (holds_gil_true th _ (Hg : gil (emit _ (set_current_of _ _ s)) = Some th)).
  rewrite (bool_decide_eq_true_2 _ (current_set_current_of th (Some a) s)).
  cbn [emit set_current_of set_current tstates negb]. rewrite Ha.
  assert (last_thread a (interp tsa)
            (emit (EvSwap th (Some a) (current s !! th)) (set_current_of th (Some a) s))
          = false) as ->; [|done].
  apply bool_decide_eq_false. intros Hall. by apply Hne, (Hall b tsb Hb).
Qed.

Lemma sub_interpreter_dtor_not_last_witness :
  ∃ ts s1,
    PyThreadState_New 1 2 after_s1 = Ok (Some ts) s1
    ∧ sub_interpreter.dtor 0 (sub_interpreter.mk (Some 2)) s1
      = Fatal "Py_EndInterpreter: not the last thread".
Proof.
  eexists _, _. split; [reflexivity|].
  apply (sub_interpreter_dtor_not_last 0 2 3 (mkThreadState 2 false) (mkThreadState 2 false));
    [reflexivity | reflexivity | reflexivity | lia | reflexivity].
Defined.





(** After a failed creation [sub_interpreter::interp()] dereferences the NULL
    thread state: the object can be destroyed, but not used. *)
Theorem sub_interpreter_interp_null (th : tid) (self : sub_interpreter.t) (s s1 : runtime) :
  sub_interpreter.ctor th false s = Ok self s1 →
  ∀ s2, sub_interpreter.interp self s2 = Fatal "NULL thread state dereferenced".
Proof.
  unfold sub_interpreter.ctor, scoped, restore_tstate_scope.ctor,
    restore_tstate_scope.dtor, Py_NewInterpreter, PyThreadState_Get, PyThreadState_Swap.
  unfold_M. intros H.
  assert (self = sub_interpreter.mk None) as ->.
  { repeat case_match; simplify_eq; done. }
  reflexivity.
Qed.

Lemma sub_interpreter_interp_null_witness :
  sub_interpreter.interp (sub_interpreter.mk None) after_init
  = Fatal "NULL thread state dereferenced".
Proof.
  eapply (sub_interpreter_interp_null 0 (sub_interpreter.mk None) after_init).
  reflexivity.
Defined.

(** Inside a [thread_scope] for interpreter [i], [thread_state::current()] is
    the pointer the scope's [thread_state] converts to, and
    [sub_interpreter::current()] is [i]; neither changes the runtime. *)
Theorem thread_scope_current (th : tid) (i : interp_id) (ist : PyInterpreterState)
    (s : runtime) :
  interps s !! i = Some ist →
  gil s = None →
  ∃ g s1,
    sub_interpreter.thread_scope.ctor th i s = Ok g s1
    ∧ (∃ s1', thread_state.current th s1
              = Ok (thread_state.to_ptr (sub_interpreter.thread_scope._state g)) s1'
              ∧ set_trace [] s1' = set_trace [] s1)
    ∧ (∃ s1', sub_interpreter.current th s1 = Ok i s1'
              ∧ set_trace [] s1' = set_trace [] s1).
Proof.
  intros Hi Hg.
  unfold sub_interpreter.thread_scope.ctor, thread_state.ctor, swap_tstate_scope.ctor,
    thread_state.to_ptr.
  unfold_M. rewrite (PyThreadState_New_ok _ _ _ _ Hi).
  rewrite PyEval_RestoreThread_ok by done.
  rewrite PyThreadState_Swap_ok by done.
  eexists _, _. split; [reflexivity|].
  cbn [sub_interpreter.thread_scope._state thread_state._ts].
  unfold sub_interpreter.current, thread_state.current. unfold_M.
  erewrite PyThreadState_Get_ok; [|apply (current_set_current_of th (Some (next_tstate s)))].
  split; [eexists; split; reflexivity|].
  unfold tstate_interp. cbn. rewrite lookup_insert_eq.
  eexists; split; reflexivity.
Qed.

Lemma thread_scope_current_witness :
  ∃ g s1,
    sub_interpreter.thread_scope.ctor 4 1 after_release = Ok g s1
    ∧ (∃ s1', thread_state.current 4 s1
              = Ok (thread_state.to_ptr (sub_interpreter.thread_scope._state g)) s1'
              ∧ set_trace [] s1' = set_trace [] s1)
    ∧ (∃ s1', sub_interpreter.current 4 s1 = Ok 1 s1'
              ∧ set_trace [] s1' = set_trace [] s1).
Proof.
  apply (thread_scope_current 4 1 (mkInterpreterState ∅) after_release); reflexivity.
Defined.










(** [swap_tstate_scope] objects in nested blocks unwind in the opposite order
    of their construction: whatever the targets and however the innermost
    body rebinds the thread, as long as it returns with the thread holding
    the GIL, after the outermost block the thread's current thread state is
    the one from before it, and the GIL is still held. *)
Theorem nested_swaps_restore {A} (th : tid) (body : M A) (targets : list (option addr)) :
  (∀ s, gil s = Some th → ∃ r s', body s = Ok r s' ∧ gil s' = Some th) →
  ∀ target s,
    gil s = Some th →
    ∃ r s', nested_swaps th (target :: targets) body s = Ok r s'
            ∧ gil s' = Some th
            ∧ current s' !! th = current s !! th.
Proof.
  intros Hbody.
  assert (∀ s, gil s = Some th →
            ∃ r s', nested_swaps th targets body s = Ok r s' ∧ gil s' = Some th)
    as Hinner.
  { induction targets as [|target targets IH]; intros s Hg; [by apply Hbody|].
    cbn [nested_swaps]. unfold scoped, swap_tstate_scope.ctor, swap_tstate_scope.dtor.
    unfold_M. rewrite (PyThreadState_Swap_ok _ _ _ Hg).
    destruct (IH (emit (EvSwap th target (current s !! th)) (set_current_of th target s)))
      as (r & s1 & -> & Hg1); [done|].
    rewrite (PyThreadState_Swap_ok _ _ _ Hg1). by eexists _, _. }
  intros target s Hg.
  cbn [nested_swaps]. unfold scoped, swap_tstate_scope.ctor, swap_tstate_scope.dtor.
  unfold_M. rewrite (PyThreadState_Swap_ok _ _ _ Hg).
  destruct (Hinner (emit (EvSwap th target (current s !! th)) (set_current_of th target s)))
    as (r & s1 & -> & Hg1); [done|].
  cbn [swap_tstate_scope._ts]. rewrite (PyThreadState_Swap_ok _ _ _ Hg1).
  eexists _, _. split; [reflexivity|]. split; [done|].
  apply current_set_current_of.
Qed.

Lemma nested_swaps_restore_witness :
  ∃ r s', nested_swaps 0 [Some 5; None; Some 7] (PyThreadState_Swap 0 (Some 9)) after_init
          = Ok r s'
          ∧ gil s' = Some 0
          ∧ current s' !! 0 = current after_init !! 0.
Proof.
  apply (nested_swaps_restore 0 (PyThreadState_Swap 0 (Some 9)) [None; Some 7]);
    [|reflexivity].
  intros s Hg. rewrite (PyThreadState_Swap_ok _ _ _ Hg). by eexists _, _.
Defined.

(** ** Further properties of [main] under every scheduling *)

Lemma closed2_spec (v : gmap N (list config)) (h : N) (l : list config) (c : config) :
  closed2 v = true → v !! h = Some l → c ∈ l → config_inv2 c.
Proof.
  unfold closed2. rewrite forallb_forall. intros Hall Hl Hc.
  specialize (Hall (h, l)). cbn beta iota in Hall.
  rewrite forallb_forall in Hall.
  assert (In (h, l) (map_to_list v)) as Hin
    by by apply list_elem_of_In, elem_of_map_to_list.
  specialize (Hall Hin c (proj1 (list_elem_of_In _ _) Hc)).
  by apply bool_decide_eq_true in Hall.
Qed.

Lemma reach_checked2 : closed2 reach = true.
Proof. vm_cast_no_check (eq_refl true). Qed.

Lemma reachable_inv2 (c : config) : reachable c → config_inv2 c.
Proof.
  intros Hr.
  apply (reachable_seen reach reach_checked), seen_spec in Hr as (l & Hl & Hc).
  exact (closed2_spec _ _ _ _ reach_checked2 Hl Hc).
Qed.

(** The threads of [main] exist from the statement that starts them on; none
    of them gets past the first call of its [thread_state]'s constructor
    before [main] has released the GIL in [enable_threads_scope t]; and when
    the [join] of a thread has returned, the thread has returned from [f]. *)
Theorem thread_lifetimes (c : config) (th : tid) :
  reachable c →
  th ∈ worker_ids →
  (is_Some (threads c !! th) ↔ (4 + th ≤ main_pc c)%nat)
  ∧ (∀ w, threads c !! th = Some w → (main_pc c ≤ 8)%nat → (w_pc w ≤ 1)%nat)
  ∧ ((9 + th ≤ main_pc c)%nat → ∃ w, threads c !! th = Some w ∧ w_pc w = 7).
Proof.
  intros Hr Hth.
  destruct (reachable_inv2 c Hr) as (Hspawn & Hwait & Hjoin & _).
  rewrite Forall_forall in Hspawn. rewrite Forall_forall in Hjoin.
  split; [by apply Hspawn|]. split.
  - intros w Hw Hpc. exact (Hwait Hpc th w Hw).
  - intros Hpc. specialize (Hjoin th Hth Hpc).
    destruct (threads c !! th) as [w|]; [|done].
    exists w. split; [done|]. by injection Hjoin.
Qed.

Lemma thread_lifetimes_witness :
  reachable busy ∧
  (is_Some (threads busy !! 2) ↔ (4 + 2 ≤ main_pc busy)%nat)
  ∧ (∀ w, threads busy !! 2 = Some w → (main_pc busy ≤ 8)%nat → (w_pc w ≤ 1)%nat)
  ∧ ((9 + 2 ≤ main_pc busy)%nat → ∃ w, threads busy !! 2 = Some w ∧ w_pc w = 7).
Proof.
  assert (reachable busy) as Hr by apply reachable_run_schedule, reachable_start.
  split; [exact Hr|].
  apply (thread_lifetimes busy 2 Hr). unfold worker_ids. set_solver.
Defined.



Lemma NoDup_omap_inj {A B} (g : A → option B) (l : list A) (x y : A) (b : B) :
  NoDup (omap g l) → x ∈ l → y ∈ l → g x = Some b → g y = Some b → x = y.
Proof.
  induction l as [|z l IH]; intros Hnd Hx Hy Hgx Hgy; [by apply elem_of_nil in Hx|].
  cbn [omap list_omap] in Hnd.
  apply elem_of_cons in Hx as [->|Hx]; apply elem_of_cons in Hy as [->|Hy]; [done| | |].
  - rewrite Hgx in Hnd. apply NoDup_cons in Hnd as [Hnotin _].
    exfalso. apply Hnotin. apply list_elem_of_omap. by exists y.
  - rewrite Hgy in Hnd. apply NoDup_cons in Hnd as [Hnotin _].
    exfalso. apply Hnotin. apply list_elem_of_omap. by exists x.
  - apply IH; [|done..]. destruct (g z); [by apply NoDup_cons in Hnd as [_ ?]|done].
Qed.

(** The [thread_state] of a thread that runs [f], in every reachable
    configuration: from its creation to its deletion it points to a live
    thread state that belongs to the interpreter the thread was started
    with, which is alive too; the thread state is marked cleared only
    between [PyThreadState_Clear] and [PyThreadState_DeleteCurrent]; while
    the thread holds the GIL it is the thread's current one; and no other
    thread's [thread_state] points to it. *)
Theorem worker_thread_state (c : config) (th : tid) (w : worker) :
  reachable c →
  threads c !! th = Some w →
  (1 ≤ w_pc w ≤ 6)%nat →
  ∃ a,
    thread_state.to_ptr (w_state w) = Some a
    ∧ tstates (rt c) !! a = Some (mkThreadState (w_interp w) (bool_decide (w_pc w = 6)))
    ∧ is_Some (interps (rt c) !! w_interp w)
    ∧ ((2 ≤ w_pc w)%nat → current (rt c) !! th = Some a)
    ∧ ∀ th' w', threads c !! th' = Some w' → th' ≠ th →
                thread_state.to_ptr (w_state w') ≠ Some a.
Proof.
  intros Hr Hw Hpc.
  pose proof (reachable_inv c Hr) as (Hids & _).
  destruct (reachable_inv2 c Hr) as (_ & _ & _ & Hworkers & Hnodup & _).
  destruct (Hworkers th w Hw) as (_ & Hlive & Hcur & _).
  destruct (Hlive Hpc) as [Hts Hinterp].
  destruct (thread_state.to_ptr (w_state w)) as [a|] eqn:Hptr; [|done].
  exists a. split; [done|]. split; [exact Hts|]. split; [exact Hinterp|].
  split; [intros ?; apply Hcur; lia|].
  intros th' w' Hw' Hne Hptr'.
  assert (∀ k v, threads c !! k = Some v → k ∈ worker_ids) as Hin.
  { intros k v Hk. specialize (Hids k v Hk). cbn in Hids. unfold worker_ids.
    rewrite !elem_of_cons.
    destruct k as [|[|[|[|[|k]]]]]; [lia|auto..|lia]. }
  assert (worker_tstate c th = Some a) as H1 by (unfold worker_tstate; by rewrite Hw).
  assert (worker_tstate c th' = Some a) as H2 by (unfold worker_tstate; by rewrite Hw').
  apply Hne. symmetry.
  exact (NoDup_omap_inj _ _ _ _ _ Hnodup (Hin _ _ Hw) (Hin _ _ Hw') H1 H2).
Qed.

Lemma worker_thread_state_witness :
  reachable busy ∧
  ∃ w, threads busy !! 2 = Some w ∧ w_pc w = 3 ∧
  ∃ a,
    thread_state.to_ptr (w_state w) = Some a
    ∧ tstates (rt busy) !! a = Some (mkThreadState (w_interp w) (bool_decide (w_pc w = 6)))
    ∧ is_Some (interps (rt busy) !! w_interp w)
    ∧ ((2 ≤ w_pc w)%nat → current (rt busy) !! 2 = Some a)
    ∧ ∀ th' w', threads busy !! th' = Some w' → th' ≠ 2 →
                thread_state.to_ptr (w_state w') ≠ Some a.
Proof.
  assert (reachable busy) as Hr by apply reachable_run_schedule, reachable_start.
  split; [exact Hr|].
  eexists. split; [vm_compute; reflexivity|]. split; [reflexivity|].
  apply (worker_thread_state busy 2 _ Hr); [vm_compute; reflexivity | cbn; lia].
Defined.

(** No thread state is ever leaked or shared unknowingly: in every reachable
    configuration each live thread state is pointed to by an object of the
    program - the thread state [main] is bound to (kept by
    [enable_threads_scope t] while the GIL is released), the [_ts] of [s1]
    or [s2], or the [thread_state] of a running thread - and the allocators
    have not handed out an address that is in use or referred to. *)
Theorem thread_states_owned (c : config) :
  reachable c →
  (∀ a ts, tstates (rt c) !! a = Some ts → Some a ∈ owners c)
  ∧ wf_alloc (rt c)
  ∧ wf_refs (rt c).
Proof.
  intros Hr.
  destruct (reachable_inv2 c Hr) as (_ & _ & _ & _ & _ & Hown & _ & _ & Hwf & Hrefs & _).
  split; [|done]. intros a ts Ha. exact (Hown a ts Ha).
Qed.

Lemma thread_states_owned_witness :
  reachable busy ∧
  (∀ a ts, tstates (rt busy) !! a = Some ts → Some a ∈ owners busy)
  ∧ wf_alloc (rt busy)
  ∧ wf_refs (rt busy).
Proof.
  assert (reachable busy) as Hr by apply reachable_run_schedule, reachable_start.
  split; [exact Hr | apply (thread_states_owned busy Hr)].
Defined.



(** The interpreters the threads run in, as long as they may run: t1 and t3
    were started with the interpreter of [s1], t2 with the one of [s2], t4
    with the one of the thread state [main] is bound to; once all of [s1]
    and [s2] exist these are three different live interpreters. *)
Theorem thread_interpreters (c : config) :
  reachable c →
  (main_pc c ≤ 13)%nat →
  (∀ th w, th ∈ [1; 3] → threads c !! th = Some w →
           interp_at c (sub_interpreter._ts (main_s1 c)) = Some (w_interp w))
  ∧ (∀ w, threads c !! 2 = Some w →
          interp_at c (sub_interpreter._ts (main_s2 c)) = Some (w_interp w))
  ∧ (∀ w, threads c !! 4 = Some w →
          interp_at c (main_tstate c) = Some (w_interp w))
  ∧ ((5 ≤ main_pc c)%nat →
     ∃ i0 i1 i2,
       interp_at c (main_tstate c) = Some i0
       ∧ interp_at c (sub_interpreter._ts (main_s1 c)) = Some i1
       ∧ interp_at c (sub_interpreter._ts (main_s2 c)) = Some i2
       ∧ i0 ≠ i1 ∧ i0 ≠ i2 ∧ i1 ≠ i2).
Proof.
  intros Hr Hpc.
  destruct (reachable_inv2 c Hr)
    as (_ & _ & _ & _ & _ & _ & _ & _ & _ & _ & Hs1 & Hs2 & Hmain & Hdistinct & _).
  split.
  { intros th w Hth Hw. rewrite Forall_forall in Hs1.
    specialize (Hs1 th Hth). rewrite Hw in Hs1. symmetry. by apply Hs1. }
  split.
  { intros w Hw. rewrite Hw in Hs2. symmetry. by apply Hs2. }
  split.
  { intros w Hw. rewrite Hw in Hmain. symmetry. by apply Hmain. }
  intros Hpc'. destruct Hdistinct as ([i0 H0] & [i1 H1] & [i2 H2] & Hnd); [lia|].
  exists i0, i1, i2. rewrite H0, H1, H2 in Hnd |- *.
  repeat (split; [done|]).
  apply NoDup_cons in Hnd as [Hn0 Hnd]. apply NoDup_cons in Hnd as [Hn1 _].
  rewrite !elem_of_cons in Hn0. rewrite !elem_of_cons in Hn1.
  repeat split; intros ->; tauto.
Qed.

Lemma thread_interpreters_witness :
  reachable busy ∧
  (∀ th w, th ∈ [1; 3] → threads busy !! th = Some w →
           interp_at busy (sub_interpreter._ts (main_s1 busy)) = Some (w_interp w))
  ∧ (∀ w, threads busy !! 2 = Some w →
          interp_at busy (sub_interpreter._ts (main_s2 busy)) = Some (w_interp w))
  ∧ (∀ w, threads busy !! 4 = Some w →
          interp_at busy (main_tstate busy) = Some (w_interp w))
  ∧ ((5 ≤ main_pc busy)%nat →
     ∃ i0 i1 i2,
       interp_at busy (main_tstate busy) = Some i0
       ∧ interp_at busy (sub_interpreter._ts (main_s1 busy)) = Some i1
       ∧ interp_at busy (sub_interpreter._ts (main_s2 busy)) = Some i2
       ∧ i0 ≠ i1 ∧ i0 ≠ i2 ∧ i1 ≠ i2).
Proof.
  assert (reachable busy) as Hr by apply reachable_run_schedule, reachable_start.
  split; [exact Hr|].
  apply (thread_interpreters busy Hr). vm_compute. lia.
Defined.

(** ** [main] when a sub-interpreter cannot be created *)

Lemma reachable_with_run_schedule (ok1 ok2 : bool) (sched : list tid) :
  ∀ c, reachable_with ok1 ok2 c → reachable_with ok1 ok2 (run_schedule_with ok1 ok2 sched c).
Proof.
  induction sched as [|th sched IH]; intros c Hc; [done|].
  cbn [run_schedule_with]. destruct (cstep ok1 ok2 th c) eqn:Hstep; auto.
  apply IH. by eapply reachable_with_step.
Qed.

Lemma crash_check_spec (ok1 ok2 : bool) (l : list config) (c : config) :
  crash_check ok1 ok2 l = true → c ∈ l →
  crash_inv ok1 ok2 c
  ∧ ∀ th label c', cstep ok1 ok2 th c = Stepped label c' → c' ∈ l.
Proof.
  unfold crash_check. intros [_ Hall]%andb_true_iff Hc.
  rewrite forallb_forall in Hall.
  specialize (Hall c (proj1 (list_elem_of_In _ _) Hc)).
  apply andb_true_iff in Hall as [Hinv%bool_decide_eq_true Hsteps].
  split; [done|]. intros th label c' Hstep.
  rewrite forallb_forall in Hsteps.
  destruct Hinv as (Hthreads & _).
  destruct th as [|[|th]].
  - specialize (Hsteps 0). rewrite Hstep in Hsteps.
    eapply bool_decide_eq_true, Hsteps, list_elem_of_In. set_solver.
  - specialize (Hsteps 1). rewrite Hstep in Hsteps.
    eapply bool_decide_eq_true, Hsteps, list_elem_of_In. set_solver.
  - unfold cstep in Hstep.
    destruct (threads c !! S (S th)) as [w|] eqn:Hw; [|done].
    destruct (Hthreads _ _ Hw) as [? _]. lia.
Qed.

(** When the creation of [s1] or of [s2] fails, [main] does not notice:
    under every scheduling it runs up to the statement that starts the first
    thread for the missing sub-interpreter and crashes there, dereferencing
    the NULL thread state in [sub_interpreter::interp()].  Until then nothing
    but the line of [main] is printed, and the only thread that may have
    been started, t1, has not got further than creating its thread state. *)
Theorem main_creation_failure (ok1 ok2 : bool) (c : config) :
  ok1 && ok2 = false →
  reachable_with ok1 ok2 c →
  (main_pc c ≤ crash_pc ok1)%nat
  ∧ (∀ th w, threads c !! th = Some w → th = 1 ∧ (w_pc w ≤ 1)%nat)
  ∧ (main_pc c = crash_pc ok1 →
     cstep ok1 ok2 0 c = Crashed "NULL thread state dereferenced")
  ∧ ((main_pc c < crash_pc ok1)%nat →
     ∃ label c', cstep ok1 ok2 0 c = Stepped label c')
  ∧ (∀ line, line ∈ stdout (rt c) → line = main_line).
Proof.
  intros Hok Hr.
  assert (crash_check ok1 ok2 (crash_configs ok1 ok2) = true) as Hcheck.
  { destruct ok1, ok2; [discriminate Hok|vm_compute; reflexivity..]. }
  assert (c ∈ crash_configs ok1 ok2) as Hc.
  { clear Hok. induction Hr as [|c th label c' _ IH Hstep].
    - apply andb_true_iff in Hcheck as [Hstart _].
      by apply bool_decide_eq_true in Hstart.
    - destruct (crash_check_spec _ _ _ _ Hcheck IH) as [_ Hnext]. by eapply Hnext. }
  destruct (crash_check_spec _ _ _ _ Hcheck Hc)
    as [(Hthreads & Hpc & Hcrash & Hstep & Hout) _].
  split; [exact Hpc|]. split; [exact Hthreads|]. split.
  { intros Heq. specialize (Hcrash Heq). unfold crashes_null in Hcrash.
    destruct (cstep ok1 ok2 0 c) as [| |msg|]; try done.
    by apply bool_decide_eq_true in Hcrash as ->. }
  split.
  { intros Hlt. specialize (Hstep Hlt). unfold steps in Hstep.
    destruct (cstep ok1 ok2 0 c) as [label c'| | |]; try done. by eexists _, _. }
  intros line Hline. rewrite Forall_forall in Hout. by apply Hout.
Qed.

Lemma main_creation_failure_witness :
  reachable_with true false (run_schedule_with true false [0; 0; 0; 0; 0; 1] start)
  ∧ main_pc (run_schedule_with true false [0; 0; 0; 0; 0; 1] start) = 5
  ∧ cstep true false 0 (run_schedule_with true false [0; 0; 0; 0; 0; 1] start)
    = Crashed "NULL thread state dereferenced".
Proof.
  assert (reachable_with true false (run_schedule_with true false [0; 0; 0; 0; 0; 1] start))
    as Hr by apply reachable_with_run_schedule, reachable_with_start.
  split; [exact Hr|]. split; [vm_compute; reflexivity|].
  destruct (main_creation_failure true false _ eq_refl Hr) as (_ & _ & Hcrash & _).
  apply Hcrash. vm_compute. reflexivity.
Defined.

(** ** What the swap inside [thread_scope] is for *)

(** A [thread_state] on its own does not survive a body that unbinds the
    thread: its destructor clears the thread state and then finds no current
    thread state to delete, a fatal error.  With the [swap_tstate_scope] that
    [thread_scope] adds, the same body is followed by a complete teardown. *)
Theorem thread_state_needs_swap (th : tid) (i : interp_id) (ist : PyInterpreterState)
    (s : runtime) :
  interps s !! i = Some ist →
  gil s = None →
  scoped (thread_state.ctor th i) (thread_state.dtor th)
         (fun _ => PyThreadState_Swap th None) s
  = Fatal "PyThreadState_DeleteCurrent: no current tstate"
  ∧ ∃ s', in_thread_scope th i (PyThreadState_Swap th None) s
          = Ok (Some (next_tstate s)) s'
          ∧ gil s' = None
          ∧ current s' !! th = None
          ∧ tstates s' !! next_tstate s = None.
Proof.
  intros Hi Hg.
  set (a := next_tstate s).
  set (s1 := emit (EvNew th i a) (alloc_tstate i s).2).
  set (s2 := emit (EvRestoreThread th a) (set_gil (Some th) (set_current_of th (Some a) s1))).
  assert (PyThreadState_New th i s = Ok (Some a) s1) as H1
    by exact (PyThreadState_New_ok _ _ _ _ Hi).
  assert (PyEval_RestoreThread th (Some a) s1 = Ok tt s2) as H2
    by by apply PyEval_RestoreThread_ok.
  assert (gil s2 = Some th) as Hg2 by reflexivity.
  assert (current s2 !! th = Some a) as Hc2
    by exact (current_set_current_of th (Some a) s1).
  assert (∀ s0 e x, tstates (emit e (set_current_of th x s0)) = tstates s0) as Hframe
    by (intros s0 e [x|]; reflexivity).
  assert (tstates s2 !! a = Some (mkThreadState i false)) as Ht2.
  { change (<[a := mkThreadState i false]> (tstates s) !! a = Some (mkThreadState i false)).
    apply lookup_insert_eq. }
  split.
  - unfold scoped, thread_state.ctor, thread_state.dtor. unfold_M.
    rewrite H1, H2. cbn [thread_state._ts].
    rewrite (PyThreadState_Swap_ok _ _ _ Hg2).
    set (s3 := emit (EvSwap th None (current s2 !! th)) (set_current_of th None s2)).
    assert (gil s3 = Some th) as Hg3 by exact Hg2.
    assert (tstates s3 !! a = Some (mkThreadState i false)) as Ht3
      by (unfold s3; by rewrite Hframe).
    rewrite (PyThreadState_Clear_ok _ _ _ _ Hg3 Ht3).
    unfold PyThreadState_DeleteCurrent.
    assert (∀ e m, current (emit e (set_tstates m s3)) !! th = None) as ->; [|done].
    intros e m. exact (current_set_current_of th None s2).
  - unfold in_thread_scope, scoped, sub_interpreter.thread_scope.ctor,
      sub_interpreter.thread_scope.dtor, thread_state.ctor, thread_state.dtor,
      swap_tstate_scope.ctor, swap_tstate_scope.dtor, thread_state.to_ptr.
    unfold_M. rewrite H1, H2. cbn [thread_state._ts].
    rewrite (PyThreadState_Swap_ok _ _ _ Hg2), Hc2.
    set (s3 := emit (EvSwap th (Some a) (Some a)) (set_current_of th (Some a) s2)).
    assert (gil s3 = Some th) as Hg3 by exact Hg2.
    rewrite (PyThreadState_Swap_ok _ _ _ Hg3).
    assert (current s3 !! th = Some a) as ->
      by exact (current_set_current_of th (Some a) s2).
    set (s4 := emit (EvSwap th None (Some a)) (set_current_of th None s3)).
    assert (gil s4 = Some th) as Hg4 by exact Hg2.
    cbn [sub_interpreter.thread_scope._swap sub_interpreter.thread_scope._state
         swap_tstate_scope._ts thread_state._ts].
    rewrite (PyThreadState_Swap_ok _ _ _ Hg4).
    set (s5 := emit (EvSwap th (Some a) (current s4 !! th)) (set_current_of th (Some a) s4)).
    assert (gil s5 = Some th) as Hg5 by exact Hg2.
    assert (tstates s5 !! a = Some (mkThreadState i false)) as Ht5.
    { unfold s5, s4, s3. by rewrite !Hframe. }
    rewrite (PyThreadState_Clear_ok _ _ _ _ Hg5 Ht5).
    set (s6 := emit (EvClear th a)
                 (set_tstates (<[a := mkThreadState (interp (mkThreadState i false)) true]>
                                 (tstates s5)) s5)).
    assert (gil s6 = Some th) as Hg6 by exact Hg2.
    assert (current s6 !! th = Some a) as Hc6
      by exact (current_set_current_of th (Some a) s4).
    assert (tstates s6 !! a = Some (mkThreadState (interp (mkThreadState i false)) true))
      as Ht6 by apply lookup_insert_eq.
    rewrite (PyThreadState_DeleteCurrent_ok _ _ _ _ Hg6 Hc6 Ht6).
    eexists. split; [reflexivity|]. split; [reflexivity|].
    split; [exact (current_set_current_of th None _)|].
    exact (lookup_delete_eq (tstates s6) a).
Qed.

Lemma thread_state_needs_swap_witness :
  scoped (thread_state.ctor 4 1) (thread_state.dtor 4)
         (fun _ => PyThreadState_Swap 4 None) after_release
  = Fatal "PyThreadState_DeleteCurrent: no current tstate"
  ∧ ∃ s', in_thread_scope 4 1 (PyThreadState_Swap 4 None) after_release
          = Ok (Some (next_tstate after_release)) s'
          ∧ gil s' = None
          ∧ current s' !! 4 = None
          ∧ tstates s' !! next_tstate after_release = None.
Proof.
  apply (thread_state_needs_swap 4 1 (mkInterpreterState ∅) after_release); reflexivity.
Defined.
